(** * unique-lines: streaming removal of duplicate lines (main.py)

    A shallow embedding of [remove_duplicates] from [main.py] together
    with the part of the Python runtime it relies on: text-mode file
    objects (universal newlines on input, [os.linesep] on output), the
    file system the two paths are resolved in, the three [except]
    clauses, and [hashlib.md5]. *)

From Stdlib Require Import ZArith Ascii String List.
From stdpp Require Import gmap strings list.
From Stdlib Require Import DecimalString.

Local Open Scope Z_scope.

(* set_solver clears hypotheses that are sometimes absent *)
Set Warnings "-clear-no-such-hyp".

(** ** Text and bytes

    A Python [bytes] value is a list of 8-bit characters.  A Python [str]
    is held as the sequence of its UTF-8 code units: the file is decoded
    with [encoding='utf-8'] (strict), so the text read and the bytes it
    re-encodes to determine each other, and the only characters the
    program inspects (line feed and carriage return) are single code
    units that occur in no multi-byte sequence.  Reading bytes that are
    not well-formed UTF-8 raises UnicodeDecodeError; that is one of the
    read faults of the world below, and [fault_free] asks for an input
    that decodes. *)

Definition bytes := list ascii.
Definition str := list ascii.
Definition path := string.

Definition LF : ascii := "010"%char.
Definition CR : ascii := "013"%char.

(** [line.encode('utf-8')] *)
Definition encode_utf8 (s : str) : bytes := s.

Definition byte_in (lo hi : N) (c : ascii) : bool :=
  ((lo <=? N_of_ascii c) && (N_of_ascii c <=? hi))%N.

(** Well-formed UTF-8 (RFC 3629): what the strict decoder accepts. *)
Fixpoint valid_utf8 (s : bytes) : bool :=
  match s with
  | [] => true
  | b0 :: r0 =>
      if byte_in 0x00 0x7f b0 then valid_utf8 r0
      else
        match r0 with
        | [] => false
        | b1 :: r1 =>
            if byte_in 0xc2 0xdf b0 then byte_in 0x80 0xbf b1 && valid_utf8 r1
            else
              match r1 with
              | [] => false
              | b2 :: r2 =>
                  if byte_in 0xe0 0xef b0 then
                    (if byte_in 0xe0 0xe0 b0 then byte_in 0xa0 0xbf b1
                     else if byte_in 0xed 0xed b0 then byte_in 0x80 0x9f b1
                     else byte_in 0x80 0xbf b1)
                    && byte_in 0x80 0xbf b2 && valid_utf8 r2
                  else
                    match r2 with
                    | [] => false
                    | b3 :: r3 =>
                        byte_in 0xf0 0xf4 b0
                        && (if byte_in 0xf0 0xf0 b0 then byte_in 0x90 0xbf b1
                            else if byte_in 0xf4 0xf4 b0 then byte_in 0x80 0x8f b1
                            else byte_in 0x80 0xbf b1)
                        && byte_in 0x80 0xbf b2 && byte_in 0x80 0xbf b3
                        && valid_utf8 r3
                    end
              end
        end
  end.

(** A text literal. *)
Definition txt (s : string) : str := list_ascii_of_string s.

(** ** hashlib.md5 (RFC 1321), on 32-bit words held in [Z] *)

Module MD5.

Definition mask32 : Z := 0xffffffff.
Definition w32 (x : Z) : Z := Z.land x mask32.
Definition add32 (x y : Z) : Z := w32 (x + y).
Definition not32 (x : Z) : Z := Z.lxor x mask32.
Definition rotl32 (x c : Z) : Z :=
  w32 (Z.lor (Z.shiftl x c) (Z.shiftr x (32 - c))).

(** floor(2^32 * abs(sin(i + 1))) for i = 0 .. 63 *)
Definition K : list Z :=
  [ 0xd76aa478; 0xe8c7b756; 0x242070db; 0xc1bdceee;
    0xf57c0faf; 0x4787c62a; 0xa8304613; 0xfd469501;
    0x698098d8; 0x8b44f7af; 0xffff5bb1; 0x895cd7be;
    0x6b901122; 0xfd987193; 0xa679438e; 0x49b40821;
    0xf61e2562; 0xc040b340; 0x265e5a51; 0xe9b6c7aa;
    0xd62f105d; 0x02441453; 0xd8a1e681; 0xe7d3fbc8;
    0x21e1cde6; 0xc33707d6; 0xf4d50d87; 0x455a14ed;
    0xa9e3e905; 0xfcefa3f8; 0x676f02d9; 0x8d2a4c8a;
    0xfffa3942; 0x8771f681; 0x6d9d6122; 0xfde5380c;
    0xa4beea44; 0x4bdecfa9; 0xf6bb4b60; 0xbebfbc70;
    0x289b7ec6; 0xeaa127fa; 0xd4ef3085; 0x04881d05;
    0xd9d4d039; 0xe6db99e5; 0x1fa27cf8; 0xc4ac5665;
    0xf4292244; 0x432aff97; 0xab9423a7; 0xfc93a039;
    0x655b59c3; 0x8f0ccc92; 0xffeff47d; 0x85845dd1;
    0x6fa87e4f; 0xfe2ce6e0; 0xa3014314; 0x4e0811a1;
    0xf7537e82; 0xbd3af235; 0x2ad7d2bb; 0xeb86d391 ].

(** per-round left-rotation amounts *)
Definition S : list Z :=
  [ 7; 12; 17; 22; 7; 12; 17; 22; 7; 12; 17; 22; 7; 12; 17; 22;
    5;  9; 14; 20; 5;  9; 14; 20; 5;  9; 14; 20; 5;  9; 14; 20;
    4; 11; 16; 23; 4; 11; 16; 23; 4; 11; 16; 23; 4; 11; 16; 23;
    6; 10; 15; 21; 6; 10; 15; 21; 6; 10; 15; 21; 6; 10; 15; 21 ].

Record regs := Regs { rA : Z; rB : Z; rC : Z; rD : Z }.

Definition init : regs :=
  Regs 0x67452301 0xefcdab89 0x98badcfe 0x10325476.

Definition byte_val (c : ascii) : Z := Z.of_N (N_of_ascii c).
Definition val_byte (z : Z) : ascii := ascii_of_N (Z.to_N (Z.land z 0xff)).

(** little-endian 32-bit word of four bytes *)
Definition word_le (b : list Z) : Z :=
  fold_right (fun x acc => x + 256 * acc) 0 b.

Fixpoint words (n : nat) (b : list Z) : list Z :=
  match n with
  | O => []
  | Datatypes.S n' => word_le (firstn 4 b) :: words n' (skipn 4 b)
  end.

Definition le_bytes (n : nat) (x : Z) : list Z :=
  map (fun k => Z.land (Z.shiftr x (8 * Z.of_nat k)) 0xff) (seq 0 n).

(** message, 0x80, zeros up to 56 mod 64, bit length as 64-bit
    little-endian *)
Definition pad (msg : list Z) : list Z :=
  let len := Z.of_nat (length msg) in
  let zeros := Z.to_nat ((55 - len) mod 64) in
  msg ++ [0x80] ++ repeat 0 zeros ++ le_bytes 8 (Z.land (8 * len) (2 ^ 64 - 1)).

Definition round (M : list Z) (r : regs) (i : nat) : regs :=
  let '(Regs A B C D) := r in
  let iz := Z.of_nat i in
  let '(F, g) :=
    if iz <? 16 then (Z.lor (Z.land B C) (Z.land (not32 B) D), iz)
    else if iz <? 32 then
      (Z.lor (Z.land D B) (Z.land (not32 D) C), (5 * iz + 1) mod 16)
    else if iz <? 48 then (Z.lxor B (Z.lxor C D), (3 * iz + 5) mod 16)
    else (Z.lxor C (Z.lor B (not32 D)), (7 * iz) mod 16) in
  let F' := add32 (add32 (add32 F A) (nth i K 0)) (nth (Z.to_nat g) M 0) in
  Regs D (add32 B (rotl32 F' (nth i S 0))) B C.

Definition block (r : regs) (chunk : list Z) : regs :=
  let M := words 16 chunk in
  let '(Regs A B C D) := fold_left (round M) (seq 0 64) r in
  Regs (add32 (rA r) A) (add32 (rB r) B) (add32 (rC r) C) (add32 (rD r) D).

Fixpoint blocks (n : nat) (r : regs) (b : list Z) : regs :=
  match n with
  | O => r
  | Datatypes.S n' => blocks n' (block r (firstn 64 b)) (skipn 64 b)
  end.

(** [hashlib.md5(data).digest()] *)
Definition digest (data : bytes) : bytes :=
  let p := pad (map byte_val data) in
  let '(Regs A B C D) := blocks (Nat.div (length p) 64) init p in
  map val_byte (le_bytes 4 A ++ le_bytes 4 B ++ le_bytes 4 C ++ le_bytes 4 D).

Definition hex_digit (z : Z) : ascii :=
  nth (Z.to_nat z) (list_ascii_of_string "0123456789abcdef") "0"%char.

(** [bytes.hex()] *)
Definition hex (b : bytes) : string :=
  string_of_list_ascii
    (flat_map (fun c => [hex_digit (byte_val c / 16); hex_digit (byte_val c mod 16)]) b).

End MD5.

(** ** Text-mode file objects

    [open(input_file, 'r', encoding='utf-8')] leaves [newline] at its
    default [None]: universal newlines.  The decoder turns every "\r\n"
    and every lone "\r" into "\n" before the text reaches the caller;
    [pending_cr] records that the previous character was a "\r" whose
    "\n" has already been delivered. *)

Fixpoint translate_newlines (pending_cr : bool) (s : str) : str :=
  match s with
  | [] => []
  | c :: rest =>
      if decide (c = CR) then LF :: translate_newlines true rest
      else if decide (c = LF) then
        if pending_cr then translate_newlines false rest
        else LF :: translate_newlines false rest
      else c :: translate_newlines false rest
  end.

(** Iterating a text file yields [readline()] results until the empty
    string: each line runs up to and including the next "\n"; the last
    one may lack it. *)
Fixpoint split_lines (s : str) : list str :=
  match s with
  | [] => []
  | c :: rest =>
      if decide (c = LF) then [c] :: split_lines rest
      else match split_lines rest with
           | [] => [[c]]
           | l :: ls => (c :: l) :: ls
           end
  end.

(** The lines [for line in f_in] delivers for a file holding [data]. *)
Definition file_lines (data : bytes) : list str :=
  split_lines (translate_newlines false data).

Inductive platform := Posix | Windows.

(** [os.linesep] *)
Definition os_linesep (p : platform) : str :=
  match p with
  | Posix => [LF]
  | Windows => [CR; LF]
  end.

(** [open(output_file, 'w', encoding='utf-8')], again with
    [newline=None]: every "\n" written becomes [os.linesep]. *)
Definition write_text (p : platform) (s : str) : bytes :=
  flat_map (fun c => if decide (c = LF) then os_linesep p else [c]) s.

(** ** The world a call runs in *)

(** The exceptions the three [except] clauses tell apart; [OtherError]
    stands for any other instance of [Exception] and carries [str(e)]. *)
Inductive io_error :=
| FileNotFoundError
| PermissionError
| OtherError (msg : string).

Record file := File {
  f_readable : bool;
  f_writable : bool;
  f_data : bytes;
}.

(** [read_fault w i] is the error raised when the loop asks for line
    number [i] (a failing device, bytes that do not decode);
    [write_fault w i] the one raised when line number [i] is written
    (a full disk).  [stdout] collects the arguments of [print]. *)
Record world := World {
  os : platform;
  fs : gmap path file;
  read_fault : nat -> option io_error;
  write_fault : nat -> option io_error;
  stdout : list string;
}.

Definition set_fs (m : gmap path file) (w : world) : world :=
  World (os w) m (read_fault w) (write_fault w) (stdout w).

Definition print (s : string) (w : world) : world :=
  World (os w) (fs w) (read_fault w) (write_fault w) (stdout w ++ [s]).

(** Computations that change the world and either raise or return. *)
Definition M (A : Type) : Type := world -> (io_error + A) * world.

Definition ret {A} (a : A) : M A := fun w => (inr a, w).
Definition bind {A B} (m : M A) (k : A -> M B) : M B :=
  fun w => match m w with
           | (inl e, w') => (inl e, w')
           | (inr a, w') => k a w'
           end.

Declare Scope io_scope.
Delimit Scope io_scope with io.
Notation "x ← y ; z" := (bind y (fun x => z))
  (at level 20, y at level 100, z at level 200, only parsing) : io_scope.
Notation "x ;; z" := (bind x (fun _ => z))
  (at level 100, z at level 200, only parsing, right associativity) : io_scope.

(** [open(p, 'r')]: the file must exist and be readable; nothing is read
    yet. *)
Definition open_r (p : path) : M unit :=
  fun w => match fs w !! p with
           | None => (inl FileNotFoundError, w)
           | Some f => if f_readable f then (inr tt, w)
                       else (inl PermissionError, w)
           end.

(** [open(p, 'w')]: creates the file, or truncates it on the spot. *)
Definition open_w (p : path) : M unit :=
  fun w => match fs w !! p with
           | None => (inr tt, set_fs (<[p := File true true []]> (fs w)) w)
           | Some f =>
               if f_writable f
               then (inr tt, set_fs (<[p := File (f_readable f) true []]> (fs w)) w)
               else (inl PermissionError, w)
           end.

(** What the open input stream holds.  It is looked up after both files
    are open: the loop writes to the output file only, so the content is
    then fixed, and it is already empty when both paths name one file. *)
Definition stream_lines (p : path) : M (list str) :=
  fun w => (inr (file_lines (default [] (f_data <$> fs w !! p))), w).

Definition append_data (b : bytes) (f : file) : file :=
  File (f_readable f) (f_writable f) (f_data f ++ b).

(** The file object asks the device for line number [i]. *)
Definition f_next (i : nat) : M unit :=
  fun w => match read_fault w i with
           | Some e => (inl e, w)
           | None => (inr tt, w)
           end.

(** [f_out.write(line)] while line number [i] is processed. *)
Definition f_write (p : path) (i : nat) (line : str) : M unit :=
  fun w => match write_fault w i with
           | Some e => (inl e, w)
           | None =>
               (inr tt, set_fs (alter (append_data (write_text (os w) line)) p (fs w)) w)
           end.

(** ** remove_duplicates *)

Record locals := Locals {
  seen_hashes : gset bytes;
  unique_count : nat;
  duplicate_count : nat;
}.

Inductive outcome :=
| Returned (unique duplicate : nat)   (* return unique_count, duplicate_count *)
| Raised (e : io_error)               (* an exception leaves the function *)
| SystemExit (code : Z).              (* sys.exit(code) *)

Section Deduplicator.

(** [hashlib.md5(data).digest()] *)
Variable md5 : bytes -> bytes.

Definition initial : locals := Locals ∅ 0 0.

(** The body of the [for] loop, for line number [i]. *)
Definition loop_body (f_out : path) (i : nat) (line : str) (st : locals) : M locals :=
  let line_hash := md5 (encode_utf8 line) in
  if decide (line_hash ∉ seen_hashes st) then
    (f_write f_out i line ;;
     ret (Locals ({[line_hash]} ∪ seen_hashes st)
                 (S (unique_count st)) (duplicate_count st)))%io
  else
    ret (Locals (seen_hashes st) (unique_count st) (S (duplicate_count st))).

(** [for line in f_in: ...]; [lines] is what the stream still holds. *)
Fixpoint for_lines (f_out : path) (lines : list str) (i : nat) (st : locals) : M locals :=
  (f_next i ;;
   match lines with
   | [] => ret st
   | line :: rest =>
       st' ← loop_body f_out i line st;
       for_lines f_out rest (S i) st'
   end)%io.

(** The [try] block. *)
Definition try_block (input_file output_file : path) : M (nat * nat) :=
  (open_r input_file ;;
   open_w output_file ;;
   lines ← stream_lines input_file;
   st ← for_lines output_file lines 0 initial;
   ret (unique_count st, duplicate_count st))%io.

Definition not_found_message (input_file : path) : string :=
  "Ошибка: Входной файл '" +:+ input_file +:+ "' не найден.".

Definition permission_message (input_file output_file : path) : string :=
  "Ошибка: Нет доступа к файлу '" +:+ input_file +:+ "' или '"
    +:+ output_file +:+ "'.".

Definition failure_message (e : string) : string :=
  "Ошибка при обработке файла: " +:+ e.

Definition remove_duplicates (input_file output_file : path) (w : world)
  : outcome * world :=
  match try_block input_file output_file w with
  | (inr (unique, duplicate), w') => (Returned unique duplicate, w')
  | (inl FileNotFoundError, w') =>
      (SystemExit 1, print (not_found_message input_file) w')
  | (inl PermissionError, w') =>
      (SystemExit 1, print (permission_message input_file output_file) w')
  | (inl (OtherError e), w') =>
      (SystemExit 1, print (failure_message e) w')
  end.

End Deduplicator.

(** ** Vocabulary of the statements *)

Section Vocabulary.

Variable md5 : bytes -> bytes.

(** [hashlib.md5(line.encode('utf-8')).digest()] *)
Definition line_hash (line : str) : bytes := md5 (encode_utf8 line).

(** First occurrences, as the specification words it: line number [i]
    is kept iff no earlier line produced the same digest. *)
Definition first_occurrences (lines : list str) : list str :=
  omap (fun i =>
          match lines !! i with
          | Some line =>
              if decide (line_hash line ∉ line_hash <$> take i lines)
              then Some line else None
          | None => None
          end)
       (seq 0 (length lines)).

(** The lines the loop writes when nothing fails, starting from the
    set [seen]. *)
Fixpoint kept (seen : gset bytes) (lines : list str) : list str :=
  match lines with
  | [] => []
  | line :: rest =>
      if decide (line_hash line ∉ seen)
      then line :: kept ({[line_hash line]} ∪ seen) rest
      else kept seen rest
  end.

(** The local variables after the loop has consumed [lines]. *)
Definition after (st : locals) (lines : list str) : locals :=
  Locals (list_to_set (line_hash <$> lines) ∪ seen_hashes st)
         (unique_count st + length (kept (seen_hashes st) lines))
         (duplicate_count st
          + (length lines - length (kept (seen_hashes st) lines))).

End Vocabulary.

(** The lines the input stream delivers to the loop.  Opening the output
    truncates it first, so a file that is its own output delivers
    nothing. *)
Definition delivered_lines (input_file output_file : path) (w : world) : list str :=
  if decide (input_file = output_file) then []
  else file_lines (default [] (f_data <$> fs w !! input_file)).

(** The bytes a file holds, if it exists. *)
Definition file_data (p : path) (w : world) : option bytes :=
  f_data <$> fs w !! p.

(** The output file as [open(..., 'w')] leaves it, holding [data]. *)
Definition written_file (p : path) (data : bytes) (w : world) : file :=
  File (default true (f_readable <$> fs w !! p)) true data.

(** Nothing can fail: the input exists, may be read and decodes, the
    output may be created or overwritten, no read and no write faults. *)
Definition fault_free (input_file output_file : path) (w : world) : Prop :=
  (exists f, fs w !! input_file = Some f /\ f_readable f = true
             /\ valid_utf8 (f_data f) = true) /\
  (forall g, fs w !! output_file = Some g -> f_writable g = true) /\
  (forall i, read_fault w i = None) /\
  (forall i, write_fault w i = None).

(** A line terminated by its only "\n". *)
Definition terminated (l : str) : Prop :=
  exists body, l = body ++ [LF] /\ LF ∉ body.

(** A last line that lacks the terminator. *)
Definition unterminated (l : str) : Prop := l <> [] /\ LF ∉ l.

(** The shape of what a text file yields: terminated lines, the last one
    possibly unterminated. *)
Fixpoint wf_lines (ls : list str) : Prop :=
  match ls with
  | [] => True
  | l :: rest =>
      match rest with
      | [] => terminated l \/ unterminated l
      | _ :: _ => terminated l /\ wf_lines rest
      end
  end.

(** The three ways a line can end in a file. *)
Definition line_ending (e : bytes) : Prop :=
  e = [LF] \/ e = [CR; LF] \/ e = [CR].

(** A stored file line by line: each line is its body and the terminator
    it has in the file, "\n", "\r\n" or "\r", a "\r" directly followed
    by "\n" being the one terminator "\r\n".  A last line that is not
    terminated has the empty terminator. *)
Fixpoint raw_lines (data : bytes) : list (bytes * bytes) :=
  match data with
  | [] => []
  | c :: rest =>
      if decide (c = LF) then ([], [LF]) :: raw_lines rest
      else if decide (c = CR) then
        match rest with
        | [] => [([], [CR])]
        | c' :: rest' =>
            if decide (c' = LF) then ([], [CR; LF]) :: raw_lines rest'
            else ([], [CR]) :: raw_lines rest
        end
      else match raw_lines rest with
           | [] => [([c], [])]
           | (body, e) :: ls => (c :: body, e) :: ls
           end
  end.




(** ** Where a run can fail *)

Section FailureDefs.

Variable md5 : bytes -> bytes.

(** Both files can be opened. *)
Definition opens_ok (input_file output_file : path) (w : world) : Prop :=
  (exists f, fs w !! input_file = Some f /\ f_readable f = true) /\
  (forall g, fs w !! output_file = Some g -> f_writable g = true).

(** Nothing fails while the lines before number [k] are processed: each
    of them is read, and written if it is the first with its digest. *)
Definition quiet_before (lines : list str) (k : nat) (w : world) : Prop :=
  forall i line,
    (i < k)%nat -> lines !! i = Some line ->
    read_fault w i = None
    /\ (line_hash md5 line ∉ line_hash md5 <$> take i lines ->
        write_fault w i = None).

(** The first I/O error of a run: at either [open], at a read, or at the
    write of a line that has to be written. *)
Inductive failure (input_file output_file : path) (w : world) : io_error -> Prop :=
| input_missing :
    fs w !! input_file = None ->
    failure input_file output_file w FileNotFoundError
| input_unreadable f :
    fs w !! input_file = Some f -> f_readable f = false ->
    failure input_file output_file w PermissionError
| output_unwritable f g :
    fs w !! input_file = Some f -> f_readable f = true ->
    fs w !! output_file = Some g -> f_writable g = false ->
    failure input_file output_file w PermissionError
| read_fails k e :
    opens_ok input_file output_file w ->
    (k <= length (delivered_lines input_file output_file w))%nat ->
    quiet_before (delivered_lines input_file output_file w) k w ->
    read_fault w k = Some e ->
    failure input_file output_file w e
| write_fails k line e :
    opens_ok input_file output_file w ->
    delivered_lines input_file output_file w !! k = Some line ->
    quiet_before (delivered_lines input_file output_file w) k w ->
    read_fault w k = None ->
    line_hash md5 line ∉
      line_hash md5 <$> take k (delivered_lines input_file output_file w) ->
    write_fault w k = Some e ->
    failure input_file output_file w e.

(** What the matching [except] clause prints. *)
Definition error_message (input_file output_file : path) (e : io_error) : string :=
  match e with
  | FileNotFoundError => not_found_message input_file
  | PermissionError => permission_message input_file output_file
  | OtherError msg => failure_message msg
  end.

End FailureDefs.

(** ** main

    [argparse] is a library: what [parser.parse_args()] returns is the
    input of the model.  Standard input is the list of the lines still to
    be read (without their line feed); [stderr] collects the messages
    given to [parser.error], [prompts] the prompts [input] shows. *)

Module args.

Record t := Namespace {
  input_file : option string;
  output_file : option string;
  input_file_alt : option string;
  output_file_alt : option string;
}.

End args.

Record process := Process {
  machine : world;
  stdin : list string;
  stderr : list string;
  prompts : list string;
}.

Definition set_machine (w : world) (p : process) : process :=
  Process w (stdin p) (stderr p) (prompts p).

(** An exception that leaves [main]. *)
Inductive exception :=
| EOFError
| IOException (e : io_error).

Inductive main_outcome :=
| MainReturned                  (* main() returns *)
| MainExit (code : Z)           (* sys.exit(code), parser.error *)
| MainRaised (e : exception).   (* an uncaught exception *)

(** The value of [a or b] for two optional strings: [None] and the empty
    string are false. *)
Definition truthy (o : option string) : bool :=
  match o with
  | Some s => negb (String.eqb s "")
  | None => false
  end.

Definition py_or (a b : option string) : option string :=
  if truthy a then a else b.

(** The string behind a value that passed [if not ...]. *)
Definition nonempty (o : option string) : option string :=
  if truthy o then o else None.

(** [os.path.exists(p)] *)
Definition os_path_exists (p : path) (w : world) : bool :=
  bool_decide (is_Some (fs w !! p)).

(** [parser.error(message)]: the message goes to standard error, the
    process ends with status 2. *)
Definition parser_error (message : string) (p : process) : main_outcome * process :=
  (MainExit 2, Process (machine p) (stdin p) (stderr p ++ [message]) (prompts p)).

(** [input(prompt)]: shows the prompt and reads one line; at the end of
    standard input it raises EOFError. *)
Definition input (prompt : string) (p : process) : (exception + string) * process :=
  match stdin p with
  | [] => (inl EOFError, Process (machine p) [] (stderr p) (prompts p ++ [prompt]))
  | response :: rest =>
      (inr response, Process (machine p) rest (stderr p) (prompts p ++ [prompt]))
  end.

Definition byte_add (c : ascii) (k : N) : ascii := ascii_of_N (N_of_ascii c + k).
Definition byte_sub (c : ascii) (k : N) : ascii := ascii_of_N (N_of_ascii c - k).

(** [str.lower()] on UTF-8 text, for the Latin letters A-Z and the
    Cyrillic letters U+0400-U+042F.  Every other character is kept: none
    of them lowers to a letter of the four answers below, so the test in
    [main] is not affected. *)
Fixpoint lower (s : string) : string :=
  match s with
  | EmptyString => EmptyString
  | String c rest =>
      if byte_in 0x41 0x5a c then String (byte_add c 0x20) (lower rest)
      else if byte_in 0xd0 0xd0 c then
        match rest with
        | EmptyString => String c EmptyString
        | String d rest' =>
            if byte_in 0x80 0x8f d
            then String "209" (String (byte_add d 0x10) (lower rest'))
            else if byte_in 0x90 0x9f d
            then String c (String (byte_add d 0x20) (lower rest'))
            else if byte_in 0xa0 0xaf d
            then String "209" (String (byte_sub d 0x20) (lower rest'))
            else String c (String d (lower rest'))
        end
      else String c (lower rest)
  end.

(** ['y', 'yes', 'д', 'да'] *)
Definition answers : list string := ["y"; "yes"; "д"; "да"]%string.

(** [str(n)] *)
Definition str_int (n : nat) : string := NilZero.string_of_uint (Nat.to_uint n).

Definition input_required : string :=
  "Необходимо указать входной файл (используйте позиционный аргумент или -i/--input)".

Definition output_required : string :=
  "Необходимо указать выходной файл (используйте позиционный аргумент или -o/--output)".

Definition not_exists_message (input_file : path) : string :=
  "Ошибка: Входной файл '" +:+ input_file +:+ "' не существует.".

Definition overwrite_prompt (output_file : path) : string :=
  "Выходной файл '" +:+ output_file +:+ "' уже существует. Перезаписать? (y/n): ".

Definition cancelled_message : string := "Операция отменена.".

Definition processing_message (input_file : path) : string :=
  "Обработка файла: " +:+ input_file.

Definition done_message (output_file : path) : string :=
  String LF ("✓ Готово! Очищенные данные сохранены в: " +:+ output_file).

Definition unique_message (unique_count : nat) : string :=
  "  Уникальных строк: " +:+ str_int unique_count.

Definition duplicate_message (duplicate_count : nat) : string :=
  "  Дубликатов удалено: " +:+ str_int duplicate_count.

Definition total_message (total : nat) : string :=
  "  Всего обработано: " +:+ str_int total.

(** [print] in a process. *)
Definition pprint (s : string) (p : process) : process :=
  set_machine (print s (machine p)) p.

Section Main.

(** [hashlib.md5(data).digest()] *)
Variable md5 : bytes -> bytes.

(** From [print(f"Обработка файла: ...")] to the end of [main]. *)
Definition process_files (input_file output_file : path) (p : process)
  : main_outcome * process :=
  let p := pprint (processing_message input_file) p in
  match remove_duplicates md5 input_file output_file (machine p) with
  | (Returned unique_count duplicate_count, w) =>
      let p := set_machine w p in
      let p := pprint (done_message output_file) p in
      let p := pprint (unique_message unique_count) p in
      let p := pprint (duplicate_message duplicate_count) p in
      let p := pprint (total_message (unique_count + duplicate_count)) p in
      (MainReturned, p)
  | (SystemExit code, w) => (MainExit code, set_machine w p)
  | (Raised e, w) => (MainRaised (IOException e), set_machine w p)
  end.

Definition main (ns : args.t) (p : process) : main_outcome * process :=
  let input_file := py_or (args.input_file_alt ns) (args.input_file ns) in
  let output_file := py_or (args.output_file_alt ns) (args.output_file ns) in
  match nonempty input_file with
  | None => parser_error input_required p
  | Some input_file =>
      match nonempty output_file with
      | None => parser_error output_required p
      | Some output_file =>
          if negb (os_path_exists input_file (machine p)) then
            (MainExit 1, pprint (not_exists_message input_file) p)
          else if os_path_exists output_file (machine p) then
            match input (overwrite_prompt output_file) p with
            | (inl e, p) => (MainRaised e, p)
            | (inr response, p) =>
                if bool_decide (lower response ∉ answers) then
                  (MainExit 0, pprint cancelled_message p)
                else process_files input_file output_file p
            end
          else process_files input_file output_file p
      end
  end.

End Main.

(** The paths [main] works on: the options win over the positional
    arguments, and both paths are needed. *)
Definition resolved (ns : args.t) : option (path * path) :=
  match nonempty (py_or (args.input_file_alt ns) (args.input_file ns)),
        nonempty (py_or (args.output_file_alt ns) (args.output_file ns)) with
  | Some input_file, Some output_file => Some (input_file, output_file)
  | _, _ => None
  end.

(** The user agrees to overwrite: the next line of standard input is one
    of the four answers, in any case. *)
Definition agrees (p : process) : Prop :=
  exists response rest, stdin p = response :: rest /\ lower response ∈ answers.

(** The status the interpreter ends with. *)
Definition exit_status (o : main_outcome) : Z :=
  match o with
  | MainReturned => 0
  | MainExit code => code
  | MainRaised _ => 1
  end.

(** ** Sample worlds *)

Definition no_fault : nat -> option io_error := fun _ => None.

(** A machine with one readable and writable file and no faults. *)
Definition single_file (p : platform) (name : path) (data : bytes) : world :=
  World p {[ name := File true true data ]} no_fault no_fault [].

(** The text [s] followed by a line feed. *)
Definition nl (s : string) : str := txt s ++ [LF].

(** A digest that looks at the first byte only, so that different lines
    collide. *)
Definition first_byte (data : bytes) : bytes := take 1 data.

(** Scenario A of the specification. *)
Definition scenario_A : world :=
  single_file Posix "in.txt" (nl "a" ++ nl "b" ++ nl "a" ++ nl "c" ++ nl "b").

(** The same line three times, with the three line endings. *)
Definition mixed_endings (p : platform) : world :=
  single_file p "in.txt" (txt "a" ++ [LF] ++ txt "a" ++ [CR; LF] ++ txt "a" ++ [CR]).

(** Two lines that share their first byte. *)
Definition colliding : world :=
  single_file Posix "in.txt" (nl "ab" ++ nl "ac" ++ nl "b").

(** The disk fills up while line number 1 is written. *)
Definition disk_full : world :=
  World Posix {[ "in.txt"%string := File true true (nl "a" ++ nl "b" ++ nl "c") ]}
        no_fault
        (fun i => if decide (i = 1%nat) then Some (OtherError "[Errno 28] No space left on device") else None)
        [].


(** "a\n", "b\r\n", "a\r", "b\n" and a last line "c" that is not
    terminated. *)
Definition three_endings_data : bytes :=
  txt "a" ++ [LF] ++ txt "b" ++ [CR; LF] ++ txt "a" ++ [CR] ++ txt "b" ++ [LF]
    ++ txt "c".

Definition three_endings : world := single_file Windows "in.txt" three_endings_data.

(** An output file that may not be written. *)
Definition read_only_output : world :=
  World Posix
        {[ "in.txt"%string := File true true (nl "a" ++ nl "b");
           "out.txt"%string := File true false (nl "keep") ]}
        no_fault no_fault [].

(** The device fails when line number 2 is asked for. *)
Definition bad_sector : world :=
  World Posix
        {[ "in.txt"%string := File true true (nl "a" ++ nl "b" ++ nl "a" ++ nl "c") ]}
        (fun i => if decide (i = 2%nat) then Some (OtherError "[Errno 5] Input/output error") else None)
        no_fault [].

(** A process with the given machine and standard input. *)
Definition console (w : world) (answers_typed : list string) : process :=
  Process w answers_typed [] [].

(** [python main.py input output] *)
Definition positional (input_file output_file : path) : args.t :=
  args.Namespace (Some input_file) (Some output_file) None None.

(** The input of scenario A next to an output file that exists. *)
Definition existing_output : world :=
  World Posix
        {[ "in.txt"%string := File true true (nl "a" ++ nl "b" ++ nl "a" ++ nl "c" ++ nl "b");
           "out.txt"%string := File true true (nl "old") ]}
        no_fault no_fault [].

(** The answers that count as agreement, spelled out. *)
Definition agreeing : list string :=
  [ "y"; "Y";
    "yes"; "yeS"; "yEs"; "yES"; "Yes"; "YeS"; "YEs"; "YES";
    "д"; "Д";
    "да"; "дА"; "Да"; "ДА" ]%string.

(** Proves [fault_free] for a sample world by evaluation. *)
Ltac sample_fault_free :=
  split;
  [ eexists; split; [vm_compute; reflexivity | split; [reflexivity | vm_compute; reflexivity]]
  | split;
    [ intros g Hg; vm_compute in Hg;
      first [discriminate Hg | injection Hg as <-; reflexivity]
    | split; intros i; vm_compute; reflexivity ] ].

(** Case analysis on the 256 values of a byte. *)
Ltac each_byte a :=
  destruct a as [[] [] [] [] [] [] [] []].

(** Decides a closed membership by evaluation. *)
Ltac among_agreeing :=
  refine (bool_decide_unpack _ _); vm_compute; exact I.

(** ** RFC 1321 test vectors *)

Example md5_empty : MD5.hex (MD5.digest (txt "")) = "d41d8cd98f00b204e9800998ecf8427e"%string.
Proof. vm_compute. reflexivity. Qed.

Example md5_abc : MD5.hex (MD5.digest (txt "abc")) = "900150983cd24fb0d6963f7d28e17f72"%string.
Proof. vm_compute. reflexivity. Qed.

Example md5_message_digest :
  MD5.hex (MD5.digest (txt "message digest")) = "f96b697d7cb7938d525a2f31aaf161d0"%string.
Proof. vm_compute. reflexivity. Qed.

Example md5_two_blocks :
  MD5.hex (MD5.digest (txt "12345678901234567890123456789012345678901234567890123456789012345678901234567890"))
  = "57edf4a22be3c955ac49da2e2107b67a"%string.
Proof. vm_compute. reflexivity. Qed.

Example md5_a_LF : MD5.hex (MD5.digest (txt "a" ++ [LF])) = "60b725f10c9c85c70d97880dfe8191b3"%string.
Proof. vm_compute. reflexivity. Qed.

(** ** Lines of a text file *)

Section Text.

Implicit Types (s body : str) (l : str) (ls : list str) (c : ascii).

Lemma translate_newlines_no_CR b s : CR ∉ translate_newlines b s.
Proof.
  revert b. induction s as [|c s IH]; intros b; simpl.
  - apply not_elem_of_nil.
  - repeat case_decide; try destruct b;
      rewrite ?not_elem_of_cons; try split; auto; discriminate.
Qed.

Lemma split_lines_concat s : concat (split_lines s) = s.
Proof.
  induction s as [|c s IH]; simpl; [done|].
  case_decide.
  - simpl. by rewrite IH.
  - destruct (split_lines s) as [|l ls]; simpl in *; by rewrite <- IH.
Qed.

Lemma terminated_cons c l : c <> LF -> terminated l -> terminated (c :: l).
Proof.
  intros Hc (body & -> & Hb). exists (c :: body). split; [done|].
  rewrite not_elem_of_cons. auto.
Qed.

Lemma unterminated_cons c l : c <> LF -> LF ∉ l -> unterminated (c :: l).
Proof.
  intros Hc Hl. split; [done|]. rewrite not_elem_of_cons. auto.
Qed.

Lemma wf_lines_cons l ls : terminated l -> wf_lines ls -> wf_lines (l :: ls).
Proof. intros Hl Hls. destruct ls; simpl; auto. Qed.

Lemma wf_lines_tail l ls : wf_lines (l :: ls) -> wf_lines ls.
Proof. destruct ls; simpl; tauto. Qed.

Lemma wf_lines_head l l' ls : wf_lines (l :: l' :: ls) -> terminated l.
Proof. simpl. tauto. Qed.

Lemma wf_split_lines s : wf_lines (split_lines s).
Proof.
  induction s as [|c s IH]; simpl; [done|].
  case_decide as Hc.
  - subst c. apply wf_lines_cons; [|done].
    exists []. split; [done|]. apply not_elem_of_nil.
  - destruct (split_lines s) as [|l [|l' ls]]; simpl in *.
    + right. apply unterminated_cons; [done|apply not_elem_of_nil].
    + destruct IH as [Ht|[_ Hu]].
      * left. by apply terminated_cons.
      * right. by apply unterminated_cons.
    + destruct IH as [Ht Hw]. split; [by apply terminated_cons|done].
Qed.

Lemma split_lines_terminated l s :
  terminated l -> split_lines (l ++ s) = l :: split_lines s.
Proof.
  intros (body & -> & Hb).
  induction body as [|c body IH]; simpl.
  - reflexivity.
  - apply not_elem_of_cons in Hb as [Hc Hb].
    rewrite decide_False by done. by rewrite IH.
Qed.

Lemma split_lines_unterminated l : unterminated l -> split_lines l = [l].
Proof.
  intros [Hne Hl]. induction l as [|c l IH]; [done|].
  apply not_elem_of_cons in Hl as [Hc Hl]. simpl.
  rewrite decide_False by done.
  destruct l as [|c' l]; [done|]. by rewrite IH.
Qed.

Lemma split_lines_of_concat ls : wf_lines ls -> split_lines (concat ls) = ls.
Proof.
  induction ls as [|l ls IH]; [done|].
  destruct ls as [|l' ls].
  - simpl. rewrite app_nil_r. intros [Ht|Hu].
    + rewrite <- (app_nil_r l) at 1. by rewrite split_lines_terminated.
    + by apply split_lines_unterminated.
  - intros [Ht Hw]. change (concat (l :: l' :: ls)) with (l ++ concat (l' :: ls)).
    rewrite split_lines_terminated by done. by rewrite IH.
Qed.

Lemma translate_write_text p s :
  CR ∉ s -> translate_newlines false (write_text p s) = s.
Proof.
  induction s as [|c s IH]; [done|].
  intros [Hc Hs]%not_elem_of_cons. simpl.
  case_decide as Hlf.
  - subst c. destruct p; simpl; fold (write_text Posix s); fold (write_text Windows s);
      by rewrite IH.
  - simpl. rewrite !decide_False by done. fold (write_text p s). by rewrite IH.
Qed.

Lemma write_text_app p s t : write_text p (s ++ t) = write_text p s ++ write_text p t.
Proof. apply flat_map_app. Qed.

Lemma elem_of_concat c ls : c ∈ concat ls <-> exists l, l ∈ ls /\ c ∈ l.
Proof.
  induction ls as [|l ls IH]; simpl.
  - split; [by intros ?%elem_of_nil|by intros (? & ?%elem_of_nil & _)].
  - rewrite elem_of_app, IH. split.
    + intros [?|(l' & ? & ?)]; [exists l|exists l']; rewrite elem_of_cons; auto.
    + intros (l' & [->|?]%elem_of_cons & ?); eauto.
Qed.

Lemma file_lines_no_CR data l : l ∈ file_lines data -> CR ∉ l.
Proof.
  intros Hl Hcr.
  apply (translate_newlines_no_CR false data).
  rewrite <- (split_lines_concat (translate_newlines false data)).
  apply elem_of_concat. eauto.
Qed.

(** Writing well-formed lines and reading them back. *)
Lemma file_lines_written p ls :
  wf_lines ls -> (forall l, l ∈ ls -> CR ∉ l) ->
  file_lines (write_text p (concat ls)) = ls.
Proof.
  intros Hwf Hcr. unfold file_lines.
  rewrite translate_write_text; [by apply split_lines_of_concat|].
  intros (l & Hin & Hl)%elem_of_concat. by apply (Hcr l).
Qed.

Lemma translate_newlines_plain body t :
  CR ∉ body -> LF ∉ body ->
  translate_newlines false (body ++ t) = body ++ translate_newlines false t.
Proof.
  induction body as [|c body IH]; [done|].
  intros [Hc1 Hb1]%not_elem_of_cons [Hc2 Hb2]%not_elem_of_cons.
  simpl. rewrite !decide_False by done. by rewrite IH.
Qed.

Lemma translate_newlines_pending c t :
  c <> LF -> translate_newlines true (c :: t) = translate_newlines false (c :: t).
Proof. intros Hc. simpl. by repeat case_decide. Qed.

Lemma translate_newlines_ending e t :
  line_ending e -> (e = [CR] -> forall t', t <> LF :: t') ->
  translate_newlines false (e ++ t) = LF :: translate_newlines false t.
Proof.
  intros [-> | [-> | ->]] Ht.
  - reflexivity.
  - reflexivity.
  - change (translate_newlines false ([CR] ++ t))
      with (LF :: translate_newlines true t).
    destruct t as [|c t]; [done|].
    rewrite translate_newlines_pending; [done|].
    intros ->. by apply (Ht eq_refl t).
Qed.

Lemma translate_newlines_last_ending e :
  line_ending e -> translate_newlines false e = [LF].
Proof. by intros [-> | [-> | ->]]. Qed.


(** A line read twice, whatever the two line endings are; a lone "\r"
    directly followed by "\n" is the one ending "\r\n". *)
Lemma file_lines_two_endings body e1 e2 :
  CR ∉ body -> LF ∉ body -> line_ending e1 -> line_ending e2 ->
  ~ (body = [] /\ e1 = [CR] /\ e2 = [LF]) ->
  file_lines (body ++ e1 ++ body ++ e2) = [body ++ [LF]; body ++ [LF]].
Proof.
  intros Hcr Hlf He1 He2 Htwo. unfold file_lines.
  rewrite translate_newlines_plain by done.
  rewrite translate_newlines_ending; [|done|].
  - rewrite translate_newlines_plain by done.
    rewrite translate_newlines_last_ending by done.
    replace (body ++ LF :: body ++ [LF])
      with (concat [body ++ [LF]; body ++ [LF]])
      by (simpl; by rewrite app_nil_r, <- app_assoc).
    apply split_lines_of_concat.
    assert (terminated (body ++ [LF])) as Ht by (by exists body).
    simpl. auto.
  - intros -> t' Heq. destruct body as [|c body].
    + destruct He2 as [-> | [-> | ->]]; [by apply Htwo|done..].
    + injection Heq as -> _. apply Hlf, list_elem_of_here.
Qed.

End Text.

(** ** The loop *)

Section Loop.

Variable md5 : bytes -> bytes.

Implicit Types (seen : gset bytes) (lines pre post : list str) (line : str)
  (st : locals) (w : world) (out : path).

Local Abbreviation kept := (kept md5).
Local Abbreviation line_hash := (line_hash md5).
Local Abbreviation first_occurrences := (first_occurrences md5).

Lemma kept_cons seen line lines :
  kept seen (line :: lines) =
    if decide (line_hash line ∉ seen)
    then line :: kept ({[line_hash line]} ∪ seen) lines
    else kept seen lines.
Proof. reflexivity. Qed.

Lemma kept_subset seen lines line : line ∈ kept seen lines -> line ∈ lines.
Proof.
  revert seen. induction lines as [|l lines IH]; intros seen; simpl; [done|].
  case_decide; rewrite ?elem_of_cons; [intros [->|?]|]; eauto.
Qed.

Lemma kept_length_le seen lines : (length (kept seen lines) <= length lines)%nat.
Proof.
  revert seen. induction lines as [|l lines IH]; intros seen; simpl; [done|].
  case_decide; simpl; [specialize (IH ({[line_hash l]} ∪ seen))|specialize (IH seen)]; lia.
Qed.

Lemma kept_wf seen lines : wf_lines lines -> wf_lines (kept seen lines).
Proof.
  revert seen. induction lines as [|l lines IH]; intros seen Hwf; [done|].
  destruct lines as [|l' lines].
  - simpl. by case_decide.
  - pose proof (wf_lines_head _ _ _ Hwf) as Ht. apply wf_lines_tail in Hwf.
    rewrite kept_cons. case_decide; [apply wf_lines_cons|]; auto.
Qed.

(** Every kept line has a digest outside [seen], and the digests of the
    kept lines are pairwise different. *)
Lemma kept_fresh seen lines line :
  line ∈ kept seen lines -> line_hash line ∉ seen.
Proof.
  revert seen. induction lines as [|l lines IH]; intros seen; simpl.
  - by intros ?%elem_of_nil.
  - case_decide as Hl; [|by apply IH].
    intros [->|Hin]%elem_of_cons; [done|].
    apply IH in Hin. set_solver.
Qed.

Lemma kept_NoDup_hashes seen lines : NoDup (line_hash <$> kept seen lines).
Proof.
  revert seen. induction lines as [|l lines IH]; intros seen; simpl.
  - constructor.
  - case_decide; [|done]. rewrite fmap_cons. constructor; [|done].
    intros (l' & Heq & Hin)%list_elem_of_fmap.
    apply kept_fresh in Hin. set_solver.
Qed.

Lemma kept_NoDup seen lines : NoDup (kept seen lines).
Proof. eapply NoDup_fmap_1, kept_NoDup_hashes. Qed.

(** A second pass over what was kept keeps all of it. *)
Lemma kept_kept seen lines : kept seen (kept seen lines) = kept seen lines.
Proof.
  revert seen. induction lines as [|l lines IH]; intros seen; [done|].
  rewrite kept_cons. case_decide as Hl; [|done].
  rewrite kept_cons, decide_True by done. f_equal. apply IH.
Qed.

(** A line whose digest is already known leaves no trace in what is
    kept, whatever its bytes are. *)
Lemma kept_known_digest seen pre line post :
  line_hash line ∈ list_to_set (line_hash <$> pre) ∪ seen ->
  kept seen (pre ++ line :: post) = kept seen (pre ++ post).
Proof.
  revert seen. induction pre as [|l pre IH]; intros seen Hin.
  - simpl in *. rewrite decide_False; [done|]. set_solver.
  - rewrite <- !app_comm_cons, !kept_cons.
    case_decide as Hd; [f_equal|]; apply IH; rewrite fmap_cons in Hin; simpl in Hin.
    all: rewrite !elem_of_union, ?elem_of_singleton in *.
    all: destruct Hin as [[Heq|?]|?]; auto; rewrite Heq; auto.
Qed.

Lemma kept_app seen pre post :
  kept seen (pre ++ post)
  = kept seen pre
    ++ kept (list_to_set (line_hash <$> pre) ∪ seen) post.
Proof.
  revert seen. induction pre as [|l pre IH]; intros seen.
  - simpl. f_equal. set_solver.
  - rewrite <- app_comm_cons, !kept_cons, fmap_cons.
    assert (forall s1 s2 : gset bytes, s1 = s2 -> kept s1 post = kept s2 post)
      as Hext by (by intros ?? ->).
    case_decide as Hl; rewrite IH; simpl; [f_equal|]; f_equal; apply Hext; set_solver.
Qed.

Lemma first_occurrences_from pre lines :
  omap (fun i =>
          match (pre ++ lines) !! i with
          | Some line =>
              if decide (line_hash line ∉ line_hash <$> take i (pre ++ lines))
              then Some line else None
          | None => None
          end)
       (seq (length pre) (length lines))
  = kept (list_to_set (line_hash <$> pre)) lines.
Proof.
  revert pre. induction lines as [|l lines IH]; intros pre; [done|].
  cbn [length seq omap list_omap].
  rewrite list_lookup_middle by done.
  rewrite take_app_length, kept_cons.
  specialize (IH (pre ++ [l])).
  rewrite <- app_assoc, length_app, Nat.add_1_r in IH.
  change ([l] ++ lines) with (l :: lines) in IH.
  assert (list_to_set (line_hash <$> pre ++ [l])
          =@{gset bytes} {[line_hash l]} ∪ list_to_set (line_hash <$> pre)) as Hset.
  { rewrite fmap_app, list_to_set_app_L. set_solver. }
  rewrite Hset in IH.
  destruct (decide (line_hash l ∉ line_hash <$> pre)) as [Hl|Hl].
  - rewrite decide_True by (by rewrite elem_of_list_to_set).
    f_equal. apply IH.
  - rewrite decide_False by (by rewrite elem_of_list_to_set).
    rewrite IH.
    assert ({[line_hash l]} ∪ list_to_set (line_hash <$> pre)
            =@{gset bytes} list_to_set (line_hash <$> pre)) as ->; [|done].
    apply dec_stable in Hl. set_solver.
Qed.

(** The loop keeps exactly the first occurrences. *)
Lemma kept_first_occurrences lines : kept ∅ lines = first_occurrences lines.
Proof. symmetry. apply (first_occurrences_from []). Qed.

Lemma after_nil st : after md5 st [] = st.
Proof.
  destruct st as [seen u d]. unfold after. simpl. f_equal; [set_solver|lia..].
Qed.

Lemma after_new st line lines :
  line_hash line ∉ seen_hashes st ->
  after md5 (Locals ({[line_hash line]} ∪ seen_hashes st)
                    (S (unique_count st)) (duplicate_count st)) lines
  = after md5 st (line :: lines).
Proof.
  intros Hl. unfold after. cbn [seen_hashes unique_count duplicate_count].
  rewrite kept_cons, decide_True by done. rewrite fmap_cons. simpl.
  f_equal; [set_solver|lia..].
Qed.

Lemma after_old st line lines :
  line_hash line ∈ seen_hashes st ->
  after md5 (Locals (seen_hashes st) (unique_count st)
                    (S (duplicate_count st))) lines
  = after md5 st (line :: lines).
Proof.
  intros Hl. unfold after. cbn [seen_hashes unique_count duplicate_count].
  rewrite kept_cons, decide_False by auto. rewrite fmap_cons. simpl.
  pose proof (kept_length_le (seen_hashes st) lines).
  f_equal; [set_solver|lia..].
Qed.

End Loop.

(** ** A run in which nothing fails *)

Section Run.

Variable md5 : bytes -> bytes.

Implicit Types (lines : list str) (st : locals) (w : world)
  (input_file output_file out : path).

Local Abbreviation kept := (kept md5).
Local Abbreviation line_hash := (line_hash md5).

Lemma set_fs_set_fs m m' w : set_fs m (set_fs m' w) = set_fs m w.
Proof. reflexivity. Qed.

Lemma set_fs_id w : set_fs (fs w) w = w.
Proof. by destruct w. Qed.

Lemma append_data_nil f : append_data [] f = f.
Proof. destruct f. unfold append_data. simpl. by rewrite app_nil_r. Qed.

Lemma append_data_app b1 b2 f :
  append_data b2 (append_data b1 f) = append_data (b1 ++ b2) f.
Proof. unfold append_data. simpl. by rewrite app_assoc. Qed.

(** Without read and write faults the loop consumes all its lines and
    appends the kept ones to the output file. *)
Lemma for_lines_ok out lines i st w :
  (forall k, read_fault w k = None) ->
  (forall k, write_fault w k = None) ->
  for_lines md5 out lines i st w
  = (inr (after md5 st lines),
     set_fs (alter (append_data
                      (write_text (os w) (concat (kept (seen_hashes st) lines))))
                   out (fs w)) w).
Proof.
  intros Hr Hw. revert i st w Hr Hw.
  induction lines as [|line lines IH]; intros i st w Hr Hw.
  - unfold for_lines, bind, f_next, ret. rewrite Hr, after_nil. simpl.
    rewrite alter_id by (intros; apply append_data_nil).
    by rewrite set_fs_id.
  - cbn [for_lines]. unfold bind at 1. unfold f_next at 1. rewrite Hr.
    unfold bind at 1. unfold loop_body. fold (line_hash line).
    rewrite kept_cons.
    destruct (decide (line_hash line ∉ seen_hashes st)) as [Hl|Hl].
    + unfold bind at 1, f_write, ret. rewrite Hw.
      rewrite IH by done. rewrite (after_new md5 st line) by done.
      cbn [os fs set_fs seen_hashes]. f_equal. unfold set_fs. simpl. f_equal.
      rewrite alter_alter_eq. apply alter_ext. intros f _. simpl.
      rewrite append_data_app. f_equal. apply eq_sym, write_text_app.
    + unfold ret. rewrite IH by done. apply dec_stable in Hl.
      by rewrite (after_old md5 st line).
Qed.

Lemma open_w_ok out w :
  (forall g, fs w !! out = Some g -> f_writable g = true) ->
  open_w out w = (inr tt, set_fs (<[out := written_file out [] w]> (fs w)) w).
Proof.
  intros Hg. unfold open_w, written_file.
  destruct (fs w !! out) as [g|] eqn:Hout; simpl; [|done].
  by rewrite (Hg g eq_refl).
Qed.

Lemma stream_lines_after_open input_file output_file f w :
  stream_lines input_file (set_fs (<[output_file := f]> (fs w)) w)
  = (inr (if decide (input_file = output_file) then file_lines (f_data f)
          else file_lines (default [] (f_data <$> fs w !! input_file))),
     set_fs (<[output_file := f]> (fs w)) w).
Proof.
  unfold stream_lines. simpl. rewrite lookup_insert.
  destruct (decide (output_file = input_file)) as [->|Hne].
  - by rewrite decide_True.
  - by rewrite decide_False by congruence.
Qed.

(** The [try] block of a run in which nothing fails. *)
Lemma try_block_ok input_file output_file w :
  fault_free input_file output_file w ->
  let lines := delivered_lines input_file output_file w in
  let ks := kept ∅ lines in
  try_block md5 input_file output_file w
  = (inr (length ks, (length lines - length ks)%nat),
     set_fs (<[output_file :=
                 written_file output_file (write_text (os w) (concat ks)) w]>
               (fs w)) w).
Proof.
  intros ((f & Hf & Hrd & _) & Hg & Hr & Hw) lines ks.
  unfold try_block. unfold bind at 1. unfold open_r. rewrite Hf, Hrd.
  unfold bind at 1. rewrite open_w_ok by done.
  unfold bind at 1. rewrite stream_lines_after_open.
  change (if decide (input_file = output_file)
          then file_lines (f_data (written_file output_file [] w))
          else file_lines (default [] (f_data <$> fs w !! input_file)))
    with lines.
  unfold bind at 1. rewrite for_lines_ok by done.
  unfold ret, after, initial. cbn [seen_hashes unique_count duplicate_count os fs set_fs].
  fold ks. f_equal. unfold set_fs. simpl. f_equal.
  rewrite alter_insert_eq. f_equal.
Qed.

(** A run in which nothing fails returns the two counts and leaves the
    kept lines in the output file. *)
Lemma remove_duplicates_ok input_file output_file w :
  fault_free input_file output_file w ->
  let lines := delivered_lines input_file output_file w in
  let ks := kept ∅ lines in
  remove_duplicates md5 input_file output_file w
  = (Returned (length ks) (length lines - length ks),
     set_fs (<[output_file :=
                 written_file output_file (write_text (os w) (concat ks)) w]>
               (fs w)) w).
Proof.
  intros Hff lines ks. unfold remove_duplicates.
  by rewrite try_block_ok.
Qed.

Lemma delivered_lines_wf input_file output_file w :
  wf_lines (delivered_lines input_file output_file w).
Proof.
  unfold delivered_lines. case_decide; [done|apply wf_split_lines].
Qed.

Lemma delivered_lines_no_CR input_file output_file w l :
  l ∈ delivered_lines input_file output_file w -> CR ∉ l.
Proof.
  unfold delivered_lines. case_decide; [by intros ?%elem_of_nil|].
  apply file_lines_no_CR.
Qed.

(** Reading back what a run wrote gives the kept lines. *)
Lemma file_lines_kept p input_file output_file w seen :
  file_lines (write_text p
                (concat (kept seen (delivered_lines input_file output_file w))))
  = kept seen (delivered_lines input_file output_file w).
Proof.
  apply file_lines_written.
  - apply kept_wf, delivered_lines_wf.
  - intros l Hl%kept_subset. by eapply delivered_lines_no_CR.
Qed.

Lemma file_data_written out data w :
  file_data out (set_fs (<[out := written_file out data w]> (fs w)) w) = Some data.
Proof. unfold file_data. simpl. by rewrite lookup_insert_eq. Qed.

End Run.

(** ** Runs that fail *)

Section Failures.

Variable md5 : bytes -> bytes.

Implicit Types (lines pre rest : list str) (st : locals) (w : world)
  (input_file output_file out : path) (e : io_error).

Local Abbreviation kept := (kept md5).
Local Abbreviation line_hash := (line_hash md5).

(** The loop runs through a prefix in which nothing fails. *)
Lemma for_lines_app out pre rest i st w :
  (forall j line,
     pre !! j = Some line ->
     read_fault w (i + j) = None
     /\ (line_hash line ∉ seen_hashes st ->
         line_hash line ∉ line_hash <$> take j pre ->
         write_fault w (i + j) = None)) ->
  for_lines md5 out (pre ++ rest) i st w
  = for_lines md5 out rest (i + length pre) (after md5 st pre)
      (set_fs (alter (append_data
                        (write_text (os w) (concat (kept (seen_hashes st) pre))))
                     out (fs w)) w).
Proof.
  revert i st w. induction pre as [|line pre IH]; intros i st w Hq.
  - simpl. rewrite Nat.add_0_r, after_nil.
    rewrite alter_id by (intros; apply append_data_nil).
    by rewrite set_fs_id.
  - destruct (Hq 0%nat line eq_refl) as [Hr Hw]. rewrite Nat.add_0_r in Hr, Hw.
    rewrite <- app_comm_cons.
    cbn [for_lines]. unfold bind at 1. unfold f_next at 1. rewrite Hr.
    unfold bind at 1. unfold loop_body. fold (line_hash line).
    rewrite kept_cons.
    destruct (decide (line_hash line ∉ seen_hashes st)) as [Hl|Hl].
    + unfold bind at 1, f_write, ret.
      rewrite Hw by (done || apply not_elem_of_nil).
      rewrite IH.
      * rewrite (after_new md5 st line) by done.
        cbn [os fs set_fs seen_hashes length].
        replace (S i + length pre)%nat with (i + S (length pre))%nat by lia.
        f_equal. unfold set_fs. simpl. f_equal.
        rewrite alter_alter_eq. apply alter_ext. intros f _. simpl.
        rewrite append_data_app. f_equal. apply eq_sym, write_text_app.
      * intros j l Hj. destruct (Hq (S j) l Hj) as [Hr' Hw'].
        cbn [read_fault write_fault set_fs seen_hashes].
        replace (S i + j)%nat with (i + S j)%nat by lia.
        split; [done|]. intros Hn1 Hn2. apply Hw'.
        -- set_solver.
        -- cbn [take]. rewrite fmap_cons, not_elem_of_cons. set_solver.
    + unfold ret. apply dec_stable in Hl. rewrite IH.
      * rewrite (after_old md5 st line) by done. cbn [length].
        by replace (S i + length pre)%nat with (i + S (length pre))%nat by lia.
      * intros j l Hj. destruct (Hq (S j) l Hj) as [Hr' Hw'].
        cbn [seen_hashes].
        replace (S i + j)%nat with (i + S j)%nat by lia.
        split; [done|]. intros Hn1 Hn2. apply Hw'; [done|].
        cbn [take]. rewrite fmap_cons, not_elem_of_cons.
        split; [|done]. intros Heq. apply Hn1. by rewrite Heq.
Qed.

Lemma for_lines_read_fault out rest i st w e :
  read_fault w i = Some e -> for_lines md5 out rest i st w = (inl e, w).
Proof.
  intros Hr. destruct rest; cbn [for_lines]; unfold bind, f_next; by rewrite Hr.
Qed.

Lemma for_lines_write_fault out line rest i st w e :
  read_fault w i = None -> line_hash line ∉ seen_hashes st ->
  write_fault w i = Some e ->
  for_lines md5 out (line :: rest) i st w = (inl e, w).
Proof.
  intros Hr Hl Hw. cbn [for_lines]. unfold bind at 1. unfold f_next. rewrite Hr.
  unfold bind at 1. unfold loop_body. fold (line_hash line).
  rewrite decide_True by done. unfold bind, f_write. by rewrite Hw.
Qed.

Lemma try_block_opened input_file output_file w :
  opens_ok input_file output_file w ->
  try_block md5 input_file output_file w
  = bind (for_lines md5 output_file
            (delivered_lines input_file output_file w) 0 initial)
         (fun st => ret (unique_count st, duplicate_count st))
         (set_fs (<[output_file := written_file output_file [] w]> (fs w)) w).
Proof.
  intros ((f & Hf & Hrd) & Hg).
  unfold try_block. unfold bind at 1. unfold open_r. rewrite Hf, Hrd.
  unfold bind at 1. rewrite open_w_ok by done.
  unfold bind at 1. by rewrite stream_lines_after_open.
Qed.

(** The first I/O error of a run leaves the [try] block as an
    exception; nothing has been printed yet. *)
Lemma quiet_prefix lines k w :
  quiet_before md5 lines k w ->
  forall j line,
    take k lines !! j = Some line ->
    read_fault w (0 + j) = None
    /\ (line_hash line ∉ seen_hashes initial ->
        line_hash line ∉ line_hash <$> take j (take k lines) ->
        write_fault w (0 + j) = None).
Proof.
  intros Hq j line [Hj Hlt]%lookup_take_Some.
  destruct (Hq j line Hlt Hj) as [Hr Hw]. split; [done|].
  intros _ Hn. apply Hw. by rewrite take_take, Nat.min_l in Hn by lia.
Qed.

Lemma try_block_fails input_file output_file w e :
  failure md5 input_file output_file w e ->
  exists w1, try_block md5 input_file output_file w = (inl e, w1)
             /\ stdout w1 = stdout w.
Proof.
  intros [Hin|f Hin Hrd|f g Hin Hrd Hout Hwr|k e' Hop Hk Hq Hr
         |k line e' Hop Hk Hq Hr Hl Hw].
  - exists w. split; [|done].
    unfold try_block, bind, open_r. by rewrite Hin.
  - exists w. split; [|done].
    unfold try_block, bind, open_r. by rewrite Hin, Hrd.
  - exists w. split; [|done].
    unfold try_block. unfold bind at 1. unfold open_r. rewrite Hin, Hrd.
    unfold bind, open_w. by rewrite Hout, Hwr.
  - rewrite try_block_opened by done.
    set (lines := delivered_lines input_file output_file w) in *.
    pose proof (quiet_prefix _ _ _ Hq) as Hq'.
    rewrite <- (take_drop k lines).
    eexists. split.
    + unfold bind. rewrite for_lines_app by exact Hq'.
      rewrite for_lines_read_fault with (e := e'); [done|].
      rewrite length_take. simpl. by rewrite Nat.min_l.
    + reflexivity.
  - rewrite try_block_opened by done.
    set (lines := delivered_lines input_file output_file w) in *.
    pose proof (lookup_lt_Some _ _ _ Hk) as Hlt.
    pose proof (quiet_prefix _ _ _ Hq) as Hq'.
    rewrite <- (take_drop_middle lines k line Hk).
    eexists. split.
    + unfold bind. rewrite for_lines_app by exact Hq'.
      rewrite for_lines_write_fault with (e := e'); [done|..].
      * rewrite length_take. simpl. by rewrite Nat.min_l by lia.
      * unfold after, initial. cbn [seen_hashes].
        rewrite elem_of_union, elem_of_list_to_set.
        intros [?|?%elem_of_empty]; [|done].
        by apply Hl.
      * rewrite length_take. simpl. by rewrite Nat.min_l by lia.
    + reflexivity.
Qed.

End Failures.

(** ** Every run returns or fails *)

Section Complete.

Variable md5 : bytes -> bytes.

Implicit Types (lines : list str) (w : world) (input_file output_file : path).

Local Abbreviation line_hash := (line_hash md5).

Lemma quiet_before_S lines n line w :
  quiet_before md5 lines n w ->
  lines !! n = Some line ->
  read_fault w n = None ->
  (line_hash line ∉ line_hash <$> take n lines -> write_fault w n = None) ->
  quiet_before md5 lines (S n) w.
Proof.
  intros Hq Hn Hr Hw i l Hi Hl.
  destruct (decide (i = n)) as [->|Hne].
  - rewrite Hn in Hl. injection Hl as <-. auto.
  - apply Hq; [lia|done].
Qed.

(** Looking for the first fault from line number [n] on. *)
Lemma first_fault input_file output_file w m n :
  opens_ok input_file output_file w ->
  let lines := delivered_lines input_file output_file w in
  (n + m)%nat = length lines ->
  quiet_before md5 lines n w ->
  (quiet_before md5 lines (length lines) w
   /\ read_fault w (length lines) = None)
  \/ exists e, failure md5 input_file output_file w e.
Proof.
  intros Hop lines. revert n. induction m as [|m IH]; intros n Hlen Hq.
  - rewrite Nat.add_0_r in Hlen. subst n.
    destruct (read_fault w (length lines)) as [e|] eqn:Hr; [|by left].
    right. exists e. by apply (read_fails md5 _ _ _ (length lines)).
  - destruct (lookup_lt_is_Some_2 lines n) as [line Hn]; [lia|].
    destruct (read_fault w n) as [e|] eqn:Hr.
    { right. exists e. apply (read_fails md5 _ _ _ n); [done|fold lines; lia|done..]. }
    destruct (decide (line_hash line ∉ line_hash <$> take n lines)) as [Hl|Hl].
    + destruct (write_fault w n) as [e|] eqn:Hw.
      { right. exists e. by apply (write_fails md5 _ _ _ n line). }
      apply (IH (S n)); [lia|]. by eapply quiet_before_S.
    + apply (IH (S n)); [lia|]. by eapply quiet_before_S.
Qed.

Lemma try_block_quiet input_file output_file w :
  opens_ok input_file output_file w ->
  let lines := delivered_lines input_file output_file w in
  quiet_before md5 lines (length lines) w ->
  read_fault w (length lines) = None ->
  exists u d w', try_block md5 input_file output_file w = (inr (u, d), w').
Proof.
  intros Hop lines Hq Hr.
  rewrite try_block_opened by done. fold lines.
  pose proof (quiet_prefix md5 _ _ _ Hq) as Hq'.
  rewrite take_ge in Hq' by done.
  unfold bind. set (w1 := set_fs _ w).
  pose proof (for_lines_app md5 output_file lines [] 0 initial w1 Hq') as Happ.
  rewrite app_nil_r in Happ. rewrite Happ.
  cbn [for_lines]. unfold bind, f_next, ret.
  change (read_fault (set_fs _ w1) (0 + length lines))
    with (read_fault w (length lines)).
  rewrite Hr. eauto.
Qed.

(** Every run either returns its two counts or meets a first I/O
    error. *)
Lemma returns_or_fails input_file output_file w :
  (exists u d w',
     remove_duplicates md5 input_file output_file w = (Returned u d, w'))
  \/ exists e, failure md5 input_file output_file w e.
Proof.
  destruct (fs w !! input_file) as [f|] eqn:Hin;
    [|right; exists FileNotFoundError; by apply input_missing].
  destruct (f_readable f) eqn:Hrd;
    [|right; exists PermissionError; by eapply input_unreadable].
  assert (opens_ok input_file output_file w
          \/ exists e, failure md5 input_file output_file w e) as [Hop|?]; [| |by right].
  { destruct (fs w !! output_file) as [g|] eqn:Hout.
    - destruct (f_writable g) eqn:Hwr.
      + left. split; [eauto|]. intros g' Hg'. congruence.
      + right. exists PermissionError. by eapply output_unwritable.
    - left. split; [eauto|]. intros g' Hg'. congruence. }
  destruct (first_fault input_file output_file w
              (length (delivered_lines input_file output_file w)) 0 Hop)
    as [[Hq Hr]|?]; [done|intros i line Hi; lia| |by right].
  left. destruct (try_block_quiet _ _ _ Hop Hq Hr) as (u & d & w' & Htry).
  exists u, d, w'. unfold remove_duplicates. by rewrite Htry.
Qed.

End Complete.

(** ** Stored lines and the lines read *)

Section Stored.

Variable md5 : bytes -> bytes.

Implicit Types (data body e : bytes) (l : bytes * bytes) (ls : list (bytes * bytes)).

Lemma length_ind (P : bytes -> Prop) :
  (forall data, (forall data', (length data' < length data)%nat -> P data') -> P data) ->
  forall data, P data.
Proof.
  intros H data. remember (length data) as n eqn:Hn. revert data Hn.
  induction n as [n IH] using lt_wf_ind. intros data ->.
  apply H. intros data' Hlt. by apply (IH (length data')).
Qed.




(** Every stored line ends with one of the three terminators, or is not
    empty. *)
Lemma raw_lines_endings data :
  Forall (fun l => line_ending l.2 \/ (l.2 = [] /\ l.1 <> [])) (raw_lines data).
Proof.
  induction data as [data IH] using length_ind.
  destruct data as [|c rest]; [constructor|].
  cbn [raw_lines].
  destruct (decide (c = LF)) as [->|Hlf].
  { constructor; [by left; left|]. apply IH. simpl. lia. }
  destruct (decide (c = CR)) as [->|Hcr].
  - destruct rest as [|c' rest'];
      [constructor; [by left; right; right|constructor]|].
    destruct (decide (c' = LF)) as [->|Hlf'].
    + constructor; [by left; right; left|]. apply IH. simpl. lia.
    + constructor; [by left; right; right|]. apply IH. simpl. lia.
  - pose proof (IH rest ltac:(simpl; lia)) as IHr.
    destruct (raw_lines rest) as [|[body e] ls].
    + constructor; [by right|constructor].
    + apply Forall_cons in IHr as [He Hls].
      constructor; [|done]. simpl in *.
      destruct He as [He|[He _]]; [by left|by right].
Qed.





End Stored.

(** ** Properties of remove_duplicates *)

(** C1 (order preservation): when nothing fails, the lines in the output
    file are exactly the lines the input delivered, filtered to those
    whose digest no earlier line produced, in their original order. *)
Theorem remove_duplicates_first_occurrences
  (md5 : bytes -> bytes) (input_file output_file : path) (w : world) :
  fault_free input_file output_file w ->
  exists u d w',
    remove_duplicates md5 input_file output_file w = (Returned u d, w')
    /\ file_data output_file w'
       = Some (write_text (os w)
                 (concat (first_occurrences md5
                            (delivered_lines input_file output_file w))))
    /\ file_lines <$> file_data output_file w'
       = Some (first_occurrences md5 (delivered_lines input_file output_file w)).
Proof.
  intros Hff. do 3 eexists. split; [by apply remove_duplicates_ok|].
  rewrite file_data_written, <- kept_first_occurrences. split; [done|].
  simpl. f_equal. apply file_lines_kept.
Qed.

Lemma remove_duplicates_first_occurrences_witness :
  fault_free "in.txt" "out.txt" scenario_A
  /\ exists u d w',
       remove_duplicates MD5.digest "in.txt" "out.txt" scenario_A = (Returned u d, w')
       /\ file_data "out.txt" w'
          = Some (write_text (os scenario_A)
                    (concat (first_occurrences MD5.digest
                               (delivered_lines "in.txt" "out.txt" scenario_A))))
       /\ file_lines <$> file_data "out.txt" w'
          = Some (first_occurrences MD5.digest
                    (delivered_lines "in.txt" "out.txt" scenario_A)).
Proof.
  assert (fault_free "in.txt" "out.txt" scenario_A) as H by sample_fault_free.
  split; [exact H|].
  exact (remove_duplicates_first_occurrences MD5.digest "in.txt" "out.txt" scenario_A H).
Defined.

(** C2 (count invariant): both counters start at zero, every pass through
    the loop body adds one to exactly one of them, and when nothing fails
    the two counts returned add up to the number of lines read. *)
Theorem count_invariant (md5 : bytes -> bytes) :
  (unique_count initial = 0%nat /\ duplicate_count initial = 0%nat)
  /\ (forall out i line st w st' w',
        loop_body md5 out i line st w = (inr st', w') ->
        (unique_count st' = S (unique_count st)
         /\ duplicate_count st' = duplicate_count st)
        \/ (unique_count st' = unique_count st
            /\ duplicate_count st' = S (duplicate_count st)))
  /\ (forall input_file output_file w,
        fault_free input_file output_file w ->
        exists u d w',
          remove_duplicates md5 input_file output_file w = (Returned u d, w')
          /\ (u + d)%nat = length (delivered_lines input_file output_file w)).
Proof.
  split; [done|]. split.
  - intros out i line st w st' w'. unfold loop_body.
    case_decide.
    + unfold bind, f_write, ret. destruct (write_fault w i); [done|].
      intros [= <- _]. simpl. auto.
    + unfold ret. intros [= <- _]. simpl. auto.
  - intros input_file output_file w Hff.
    do 3 eexists. split; [by apply remove_duplicates_ok|].
    pose proof (kept_length_le md5 ∅ (delivered_lines input_file output_file w)).
    lia.
Qed.

Lemma count_invariant_witness :
  fault_free "in.txt" "out.txt" scenario_A
  /\ (exists u d w',
        remove_duplicates MD5.digest "in.txt" "out.txt" scenario_A = (Returned u d, w')
        /\ (u + d)%nat = length (delivered_lines "in.txt" "out.txt" scenario_A))
  /\ (exists st' w',
        loop_body MD5.digest "out.txt" 0 (nl "a") initial scenario_A = (inr st', w')
        /\ ((unique_count st' = S (unique_count initial)
             /\ duplicate_count st' = duplicate_count initial)
            \/ (unique_count st' = unique_count initial
                /\ duplicate_count st' = S (duplicate_count initial)))).
Proof.
  assert (fault_free "in.txt" "out.txt" scenario_A) as H by sample_fault_free.
  split; [exact H|]. split.
  - exact (proj2 (proj2 (count_invariant MD5.digest)) "in.txt" "out.txt" scenario_A H).
  - destruct (loop_body MD5.digest "out.txt" 0 (nl "a") initial scenario_A)
      as [[e|st'] w'] eqn:E.
    + vm_compute in E. discriminate E.
    + exists st', w'. split; [reflexivity|].
      exact (proj1 (proj2 (count_invariant MD5.digest)) _ _ _ _ _ _ _ E).
Defined.

(** The digest itself tells the two endings apart. *)
Example md5_tells_endings_apart :
  MD5.digest (encode_utf8 (txt "a" ++ [LF]))
  <> MD5.digest (encode_utf8 (txt "a" ++ [CR; LF])).
Proof. vm_compute. discriminate. Qed.




(** C4, as the specification states it, fails: with the input file
    missing the [try] block raises FileNotFoundError, but what leaves
    [remove_duplicates] is [sys.exit(1)], not that exception. *)
Lemma missing_input_is_not_propagated :
  failure MD5.digest "missing.txt" "out.txt" scenario_A FileNotFoundError
  /\ remove_duplicates MD5.digest "missing.txt" "out.txt" scenario_A
     = (SystemExit 1, print (not_found_message "missing.txt") scenario_A)
  /\ fst (remove_duplicates MD5.digest "missing.txt" "out.txt" scenario_A)
     <> Raised FileNotFoundError.
Proof.
  split; [apply input_missing; vm_compute; reflexivity|].
  split; [vm_compute; reflexivity|].
  vm_compute. discriminate.
Qed.

(** C4 (amended): whenever an I/O error occurs, at either [open], at a
    read or at a write, [remove_duplicates] returns no counts: it prints
    the message of the matching [except] clause and leaves through
    [sys.exit(1)]. *)
Theorem io_error_exits
  (md5 : bytes -> bytes) (input_file output_file : path) (w : world) (e : io_error) :
  failure md5 input_file output_file w e ->
  exists w',
    remove_duplicates md5 input_file output_file w = (SystemExit 1, w')
    /\ stdout w' = stdout w ++ [error_message input_file output_file e].
Proof.
  intros (w1 & Htry & Hout)%try_block_fails.
  unfold remove_duplicates. rewrite Htry.
  destruct e; eexists; (split; [reflexivity|]); simpl; by rewrite Hout.
Qed.

(** No exception ever leaves [remove_duplicates]. *)
Lemma never_raised (md5 : bytes -> bytes) (input_file output_file : path) (w : world)
  (e : io_error) :
  fst (remove_duplicates md5 input_file output_file w) <> Raised e.
Proof.
  unfold remove_duplicates.
  by destruct (try_block md5 input_file output_file w) as [[[]|[]] ?].
Qed.

Lemma io_error_exits_witness :
  failure MD5.digest "in.txt" "out.txt" disk_full
    (OtherError "[Errno 28] No space left on device")
  /\ exists w',
       remove_duplicates MD5.digest "in.txt" "out.txt" disk_full = (SystemExit 1, w')
       /\ stdout w'
          = stdout disk_full
            ++ [error_message "in.txt" "out.txt"
                  (OtherError "[Errno 28] No space left on device")].
Proof.
  assert (failure MD5.digest "in.txt" "out.txt" disk_full
            (OtherError "[Errno 28] No space left on device")) as H.
  { apply (write_fails MD5.digest "in.txt" "out.txt" disk_full 1 (nl "b")).
    - split.
      + eexists. split; [vm_compute; reflexivity|reflexivity].
      + intros g Hg. vm_compute in Hg. discriminate Hg.
    - vm_compute. reflexivity.
    - intros i line Hi _. destruct i as [|i]; [|lia].
      split; [reflexivity|]. intros _. reflexivity.
    - reflexivity.
    - refine (bool_decide_unpack _ _). vm_compute. exact I.
    - reflexivity. }
  split; [exact H|].
  exact (io_error_exits MD5.digest "in.txt" "out.txt" disk_full _ H).
Defined.

(** C5 (idempotence): running again on the output of a run, with a
    different file as the new output, returns the first run's unique
    count and a duplicate count of 0, and the new output holds the same
    bytes as its input. *)
Theorem remove_duplicates_idempotent
  (md5 : bytes -> bytes) (input_file output_file output_file' : path) (w : world) :
  fault_free input_file output_file w ->
  output_file' <> output_file ->
  fault_free output_file output_file'
    (snd (remove_duplicates md5 input_file output_file w)) ->
  exists u d w1 w2,
    remove_duplicates md5 input_file output_file w = (Returned u d, w1)
    /\ remove_duplicates md5 output_file output_file' w1 = (Returned u 0, w2)
    /\ file_data output_file' w2 = file_data output_file w1.
Proof.
  intros H1 Hne H2.
  rewrite remove_duplicates_ok in H2 by done. cbn [snd] in H2.
  set (lines := delivered_lines input_file output_file w) in *.
  set (w1 := set_fs _ w) in *.
  assert (delivered_lines output_file output_file' w1 = kept md5 ∅ lines) as Hl.
  { unfold delivered_lines. rewrite decide_False by done.
    fold (file_data output_file w1). unfold w1. rewrite file_data_written.
    simpl. apply file_lines_kept. }
  exists (length (kept md5 ∅ lines)), (length lines - length (kept md5 ∅ lines))%nat,
         w1, (snd (remove_duplicates md5 output_file output_file' w1)).
  split; [by apply remove_duplicates_ok|].
  rewrite (remove_duplicates_ok md5 output_file output_file' w1) by done.
  cbn [snd]. rewrite Hl, kept_kept, Nat.sub_diag. split; [done|].
  rewrite file_data_written. unfold w1. by rewrite file_data_written.
Qed.

Lemma remove_duplicates_idempotent_witness :
  fault_free "in.txt" "out.txt" scenario_A
  /\ "again.txt"%string <> "out.txt"%string
  /\ fault_free "out.txt" "again.txt"
       (snd (remove_duplicates MD5.digest "in.txt" "out.txt" scenario_A))
  /\ exists u d w1 w2,
       remove_duplicates MD5.digest "in.txt" "out.txt" scenario_A = (Returned u d, w1)
       /\ remove_duplicates MD5.digest "out.txt" "again.txt" w1 = (Returned u 0, w2)
       /\ file_data "again.txt" w2 = file_data "out.txt" w1.
Proof.
  assert (fault_free "in.txt" "out.txt" scenario_A) as H1 by sample_fault_free.
  assert ("again.txt"%string <> "out.txt"%string) as Hne by discriminate.
  assert (fault_free "out.txt" "again.txt"
            (snd (remove_duplicates MD5.digest "in.txt" "out.txt" scenario_A)))
    as H2 by sample_fault_free.
  split; [exact H1|]. split; [exact Hne|]. split; [exact H2|].
  exact (remove_duplicates_idempotent MD5.digest "in.txt" "out.txt" "again.txt"
           scenario_A H1 Hne H2).
Defined.

(** C6 (no duplicates in output): the loop body writes a line only when
    its digest is not in [seen_hashes], and the digest is in the set
    right after the write; a line whose digest is in the set is not
    written.  Consequently the lines of the output file of a run in which
    nothing fails are pairwise different, and so are their digests. *)
Theorem written_lines_are_new (md5 : bytes -> bytes) :
  (forall out i line st w st' w',
     loop_body md5 out i line st w = (inr st', w') ->
     ((line_hash md5 line ∉ seen_hashes st)
      /\ w' = set_fs (alter (append_data (write_text (os w) line)) out (fs w)) w
      /\ seen_hashes st' = {[line_hash md5 line]} ∪ seen_hashes st)
     \/ (line_hash md5 line ∈ seen_hashes st
         /\ w' = w /\ seen_hashes st' = seen_hashes st))
  /\ (forall input_file output_file w,
        fault_free input_file output_file w ->
        exists u d w' ws,
          remove_duplicates md5 input_file output_file w = (Returned u d, w')
          /\ file_lines <$> file_data output_file w' = Some ws
          /\ NoDup ws /\ NoDup (line_hash md5 <$> ws)).
Proof.
  split.
  - intros out i line st w st' w'. unfold loop_body. fold (line_hash md5 line).
    destruct (decide (line_hash md5 line ∉ seen_hashes st)) as [Hl|Hl].
    + unfold bind, f_write, ret. destruct (write_fault w i); [done|].
      intros [= <- <-]. left. auto.
    + unfold ret. intros [= <- <-]. right. apply dec_stable in Hl. auto.
  - intros input_file output_file w Hff.
    do 4 eexists. split; [by apply remove_duplicates_ok|].
    rewrite file_data_written. simpl. rewrite file_lines_kept.
    split; [done|]. split; [apply kept_NoDup|apply kept_NoDup_hashes].
Qed.

Lemma written_lines_are_new_witness :
  fault_free "in.txt" "out.txt" scenario_A
  /\ (exists u d w' ws,
        remove_duplicates MD5.digest "in.txt" "out.txt" scenario_A = (Returned u d, w')
        /\ file_lines <$> file_data "out.txt" w' = Some ws
        /\ NoDup ws /\ NoDup (line_hash MD5.digest <$> ws))
  /\ (exists st' w',
        loop_body MD5.digest "out.txt" 0 (nl "a") initial scenario_A = (inr st', w')
        /\ (((line_hash MD5.digest (nl "a") ∉ seen_hashes initial)
             /\ w' = set_fs (alter (append_data (write_text (os scenario_A) (nl "a")))
                                   "out.txt" (fs scenario_A)) scenario_A
             /\ seen_hashes st'
                = {[line_hash MD5.digest (nl "a")]} ∪ seen_hashes initial)
            \/ (line_hash MD5.digest (nl "a") ∈ seen_hashes initial
                /\ w' = scenario_A /\ seen_hashes st' = seen_hashes initial))).
Proof.
  assert (fault_free "in.txt" "out.txt" scenario_A) as H by sample_fault_free.
  split; [exact H|]. split.
  - exact (proj2 (written_lines_are_new MD5.digest) "in.txt" "out.txt" scenario_A H).
  - destruct (loop_body MD5.digest "out.txt" 0 (nl "a") initial scenario_A)
      as [[e|st'] w'] eqn:E.
    + vm_compute in E. discriminate E.
    + exists st', w'. split; [reflexivity|].
      exact (proj1 (written_lines_are_new MD5.digest) _ _ _ _ _ _ _ E).
Defined.

(** C7 (hash collisions): when a line has the digest of a different,
    earlier line, it is counted as a duplicate and leaves no trace in the
    output: the output holds the first occurrences among the other lines,
    the unique count is their number, and the line adds one to the
    duplicate count.  No comparison of the lines' bytes takes place. *)
Theorem collision_is_a_duplicate
  (md5 : bytes -> bytes) (input_file output_file : path) (w : world)
  (pre post : list str) (l1 l2 : str) :
  fault_free input_file output_file w ->
  delivered_lines input_file output_file w = pre ++ l2 :: post ->
  l1 ∈ pre -> l1 <> l2 -> line_hash md5 l1 = line_hash md5 l2 ->
  exists u d w' ws,
    remove_duplicates md5 input_file output_file w = (Returned u (S d), w')
    /\ file_lines <$> file_data output_file w' = Some ws
    /\ ws = first_occurrences md5 (pre ++ post)
    /\ u = length ws
    /\ (u + d)%nat = length (pre ++ post)
    /\ (l2 ∉ pre -> l2 ∉ ws).
Proof.
  intros Hff Hlines Hin Hne Hcol.
  assert (line_hash md5 l2 ∈ list_to_set (line_hash md5 <$> pre) ∪ (∅ : gset bytes))
    as Hknown.
  { rewrite <- Hcol, elem_of_union, elem_of_list_to_set. left.
    by apply list_elem_of_fmap_2. }
  pose proof (kept_known_digest md5 ∅ pre l2 post Hknown) as Hk.
  pose proof (kept_length_le md5 ∅ (pre ++ post)) as Hle.
  rewrite <- Hlines in Hk.
  assert (length (delivered_lines input_file output_file w)
          = S (length (pre ++ post))) as Hlen.
  { rewrite Hlines, !length_app. simpl. lia. }
  exists (length (kept md5 ∅ (pre ++ post))),
         (length (pre ++ post) - length (kept md5 ∅ (pre ++ post)))%nat,
         (snd (remove_duplicates md5 input_file output_file w)),
         (kept md5 ∅ (pre ++ post)).
  rewrite remove_duplicates_ok by done. cbn [snd].
  rewrite file_data_written. simpl. rewrite file_lines_kept, Hk, Hlen.
  split; [do 2 f_equal; lia|].
  split; [done|]. split; [apply kept_first_occurrences|].
  split; [done|]. split; [lia|].
  intros Hpre. rewrite kept_app.
  intros [Hl|Hl]%elem_of_app.
  - by apply kept_subset in Hl.
  - by apply kept_fresh in Hl.
Qed.

Lemma collision_is_a_duplicate_witness :
  fault_free "in.txt" "out.txt" colliding
  /\ delivered_lines "in.txt" "out.txt" colliding = [nl "ab"] ++ nl "ac" :: [nl "b"]
  /\ nl "ab" ∈ [nl "ab"] /\ nl "ab" <> nl "ac"
  /\ line_hash first_byte (nl "ab") = line_hash first_byte (nl "ac")
  /\ exists u d w' ws,
       remove_duplicates first_byte "in.txt" "out.txt" colliding = (Returned u (S d), w')
       /\ file_lines <$> file_data "out.txt" w' = Some ws
       /\ ws = first_occurrences first_byte ([nl "ab"] ++ [nl "b"])
       /\ u = length ws
       /\ (u + d)%nat = length ([nl "ab"] ++ [nl "b"])
       /\ (nl "ac" ∉ [nl "ab"] -> nl "ac" ∉ ws).
Proof.
  assert (fault_free "in.txt" "out.txt" colliding) as H by sample_fault_free.
  assert (delivered_lines "in.txt" "out.txt" colliding = [nl "ab"] ++ nl "ac" :: [nl "b"])
    as Hl by (vm_compute; reflexivity).
  assert (nl "ab" ∈ [nl "ab"]) as Hin by (apply list_elem_of_here).
  assert (nl "ab" <> nl "ac") as Hne by (vm_compute; discriminate).
  assert (line_hash first_byte (nl "ab") = line_hash first_byte (nl "ac")) as Hc
    by reflexivity.
  repeat (split; [assumption|]).
  exact (collision_is_a_duplicate first_byte "in.txt" "out.txt" colliding
           [nl "ab"] [nl "b"] (nl "ab") (nl "ac") H Hl Hin Hne Hc).
Defined.

(** C8 (scenario A): for the input lines "a\n", "b\n", "a\n", "c\n",
    "b\n" the output holds "a\n", "b\n", "c\n", and the call returns
    unique_count = 3 and duplicate_count = 2. *)
Theorem scenario_A_result (input_file output_file : path) (w : world) :
  fault_free input_file output_file w ->
  delivered_lines input_file output_file w
  = [nl "a"; nl "b"; nl "a"; nl "c"; nl "b"] ->
  exists w',
    remove_duplicates MD5.digest input_file output_file w = (Returned 3 2, w')
    /\ file_lines <$> file_data output_file w' = Some [nl "a"; nl "b"; nl "c"]
    /\ file_data output_file w'
       = Some (write_text (os w) (nl "a" ++ nl "b" ++ nl "c")).
Proof.
  intros Hff Hlines.
  assert (kept MD5.digest ∅ [nl "a"; nl "b"; nl "a"; nl "c"; nl "b"]
          = [nl "a"; nl "b"; nl "c"]) as Hk by (vm_compute; reflexivity).
  exists (snd (remove_duplicates MD5.digest input_file output_file w)).
  rewrite remove_duplicates_ok by done. cbn [snd].
  rewrite file_data_written. cbn [fmap option_fmap option_map].
  rewrite file_lines_kept, Hlines, Hk.
  split; [reflexivity|]. split; [reflexivity|].
  reflexivity.
Qed.

Lemma scenario_A_result_witness :
  fault_free "in.txt" "out.txt" scenario_A
  /\ delivered_lines "in.txt" "out.txt" scenario_A
     = [nl "a"; nl "b"; nl "a"; nl "c"; nl "b"]
  /\ exists w',
       remove_duplicates MD5.digest "in.txt" "out.txt" scenario_A = (Returned 3 2, w')
       /\ file_lines <$> file_data "out.txt" w' = Some [nl "a"; nl "b"; nl "c"]
       /\ file_data "out.txt" w'
          = Some (write_text (os scenario_A) (nl "a" ++ nl "b" ++ nl "c")).
Proof.
  assert (fault_free "in.txt" "out.txt" scenario_A) as H by sample_fault_free.
  assert (delivered_lines "in.txt" "out.txt" scenario_A
          = [nl "a"; nl "b"; nl "a"; nl "c"; nl "b"]) as Hl by (vm_compute; reflexivity).
  split; [exact H|]. split; [exact Hl|].
  exact (scenario_A_result "in.txt" "out.txt" scenario_A H Hl).
Defined.

(** C9 (empty input): for an empty input file the output file is empty
    and both counts are 0. *)
Theorem empty_input_result
  (md5 : bytes -> bytes) (input_file output_file : path) (w : world) :
  fault_free input_file output_file w ->
  file_data input_file w = Some [] ->
  exists w',
    remove_duplicates md5 input_file output_file w = (Returned 0 0, w')
    /\ file_data output_file w' = Some [].
Proof.
  intros Hff Hempty.
  assert (delivered_lines input_file output_file w = []) as Hlines.
  { unfold delivered_lines. case_decide; [done|].
    unfold file_data in Hempty. by rewrite Hempty. }
  exists (snd (remove_duplicates md5 input_file output_file w)).
  rewrite remove_duplicates_ok by done. cbn [snd].
  rewrite file_data_written, Hlines. split; reflexivity.
Qed.

Lemma empty_input_result_witness :
  fault_free "in.txt" "out.txt" (single_file Windows "in.txt" [])
  /\ file_data "in.txt" (single_file Windows "in.txt" []) = Some []
  /\ exists w',
       remove_duplicates MD5.digest "in.txt" "out.txt" (single_file Windows "in.txt" [])
       = (Returned 0 0, w')
       /\ file_data "out.txt" w' = Some [].
Proof.
  assert (fault_free "in.txt" "out.txt" (single_file Windows "in.txt" [])) as H
    by sample_fault_free.
  assert (file_data "in.txt" (single_file Windows "in.txt" []) = Some []) as He
    by (vm_compute; reflexivity).
  split; [exact H|]. split; [exact He|].
  exact (empty_input_result MD5.digest "in.txt" "out.txt" _ H He).
Defined.

(** C10 (determinism): two runs in which nothing fails, on any paths and
    in any two worlds of one platform, whose input streams deliver the
    same lines return the same pair of counts and leave the same bytes in
    their output files. *)
Theorem remove_duplicates_deterministic
  (md5 : bytes -> bytes) (input1 output1 input2 output2 : path) (w1 w2 : world) :
  fault_free input1 output1 w1 ->
  fault_free input2 output2 w2 ->
  os w1 = os w2 ->
  delivered_lines input1 output1 w1 = delivered_lines input2 output2 w2 ->
  exists u d w1' w2',
    remove_duplicates md5 input1 output1 w1 = (Returned u d, w1')
    /\ remove_duplicates md5 input2 output2 w2 = (Returned u d, w2')
    /\ file_data output1 w1' = file_data output2 w2'.
Proof.
  intros H1 H2 Hos Hlines.
  do 4 eexists. split; [by apply remove_duplicates_ok|].
  split; [rewrite Hlines; by apply remove_duplicates_ok|].
  by rewrite !file_data_written, Hos, Hlines.
Qed.

Lemma remove_duplicates_deterministic_witness :
  fault_free "in.txt" "out.txt" scenario_A
  /\ fault_free "data/words" "clean" (single_file Posix "data/words"
                                        (txt "a" ++ [CR; LF] ++ txt "b" ++ [CR]
                                         ++ nl "a" ++ nl "c" ++ nl "b"))
  /\ exists u d w1' w2',
       remove_duplicates MD5.digest "in.txt" "out.txt" scenario_A = (Returned u d, w1')
       /\ remove_duplicates MD5.digest "data/words" "clean"
            (single_file Posix "data/words"
               (txt "a" ++ [CR; LF] ++ txt "b" ++ [CR] ++ nl "a" ++ nl "c" ++ nl "b"))
          = (Returned u d, w2')
       /\ file_data "out.txt" w1' = file_data "clean" w2'.
Proof.
  assert (fault_free "in.txt" "out.txt" scenario_A) as H1 by sample_fault_free.
  assert (fault_free "data/words" "clean"
            (single_file Posix "data/words"
               (txt "a" ++ [CR; LF] ++ txt "b" ++ [CR] ++ nl "a" ++ nl "c" ++ nl "b")))
    as H2 by sample_fault_free.
  split; [exact H1|]. split; [exact H2|].
  apply (remove_duplicates_deterministic MD5.digest _ _ _ _ _ _ H1 H2).
  - reflexivity.
  - vm_compute. reflexivity.
Defined.

(** ** Further behaviour of the model *)

(** Scenario C: nothing to drop. *)
Example scenario_C :
  let r := remove_duplicates MD5.digest "in.txt" "out.txt"
             (single_file Posix "in.txt" (nl "x" ++ nl "y" ++ nl "z")) in
  fst r = Returned 3 0
  /\ file_data "out.txt" (snd r) = Some (nl "x" ++ nl "y" ++ nl "z").
Proof. split; vm_compute; reflexivity. Qed.

(** Scenario D: with the input missing no output file is created. *)
Example scenario_D :
  let r := remove_duplicates MD5.digest "missing.txt" "out.txt" scenario_A in
  fst r = SystemExit 1 /\ file_data "out.txt" (snd r) = None.
Proof. split; vm_compute; reflexivity. Qed.

(** A last line without terminator differs from the terminated one. *)
Example unterminated_last_line :
  fst (remove_duplicates MD5.digest "in.txt" "out.txt"
         (single_file Posix "in.txt" (nl "a" ++ txt "a")))
  = Returned 2 0.
Proof. vm_compute. reflexivity. Qed.

(** A file that is its own output is truncated before the first read. *)
Example input_is_output :
  let r := remove_duplicates MD5.digest "in.txt" "in.txt" scenario_A in
  fst r = Returned 0 0 /\ file_data "in.txt" (snd r) = Some [].
Proof. split; vm_compute; reflexivity. Qed.

(** The three line endings of one line, read on either platform. *)
Example mixed_endings_merge (p : platform) :
  fst (remove_duplicates MD5.digest "in.txt" "out.txt" (mixed_endings p))
  = Returned 1 2.
Proof. destruct p; vm_compute; reflexivity. Qed.

(** ** What a run leaves alone *)

Section Frame.

Variable md5 : bytes -> bytes.

Implicit Types (lines : list str) (st : locals) (w : world)
  (input_file output_file out q : path).

Lemma for_lines_frame out lines i st w q :
  q <> out ->
  fs (snd (for_lines md5 out lines i st w)) !! q = fs w !! q.
Proof.
  intros Hq. revert i st w.
  induction lines as [|line lines IH]; intros i st w;
    cbn [for_lines]; unfold bind at 1; unfold f_next;
    destruct (read_fault w i); [done|done|done|].
  unfold bind at 1. unfold loop_body.
  case_decide.
  - unfold bind at 1. unfold f_write. destruct (write_fault w i); [done|].
    unfold ret. rewrite IH. simpl. by rewrite lookup_alter_ne.
  - unfold ret. by rewrite IH.
Qed.

Lemma try_block_frame input_file output_file w q :
  q <> output_file ->
  fs (snd (try_block md5 input_file output_file w)) !! q = fs w !! q.
Proof.
  intros Hq. unfold try_block. unfold bind at 1. unfold open_r.
  destruct (fs w !! input_file) as [f|]; [|done].
  destruct (f_readable f); [|done].
  unfold bind at 1. unfold open_w.
  assert (forall g, fs (set_fs (<[output_file := g]> (fs w)) w) !! q = fs w !! q)
    as Hins by (intros g; simpl; by rewrite lookup_insert_ne).
  destruct (fs w !! output_file) as [g|]; [destruct (f_writable g); [|done]|].
  all: unfold bind at 1; unfold stream_lines; unfold bind at 1.
  all: match goal with
       | |- context [for_lines md5 ?o ?l ?i ?s ?w0] =>
           pose proof (for_lines_frame o l i s w0 q Hq) as Hfr;
           destruct (for_lines md5 o l i s w0) as [[e|st] w1]
       end.
  all: simpl in *; by rewrite Hfr, ?lookup_insert_ne.
Qed.

Lemma print_fs s w : fs (print s w) = fs w.
Proof. reflexivity. Qed.

Lemma remove_duplicates_frame input_file output_file w q :
  q <> output_file ->
  fs (snd (remove_duplicates md5 input_file output_file w)) !! q = fs w !! q.
Proof.
  intros Hq. unfold remove_duplicates.
  pose proof (try_block_frame input_file output_file w q Hq) as Hfr.
  destruct (try_block md5 input_file output_file w) as [[[| |msg]|[u d]] w1];
    simpl in *; done.
Qed.

(** When either [open] fails the [try] block changes nothing. *)
Lemma try_block_not_opened input_file output_file w :
  fs w !! input_file = None
  \/ (exists f, fs w !! input_file = Some f /\ f_readable f = false)
  \/ (exists g, fs w !! output_file = Some g /\ f_writable g = false) ->
  exists e, try_block md5 input_file output_file w = (inl e, w).
Proof.
  intros Hno. unfold try_block. unfold bind at 1. unfold open_r.
  destruct (fs w !! input_file) as [f|] eqn:Hin; [|by eexists].
  destruct (f_readable f) eqn:Hrd; [|by eexists].
  destruct Hno as [?|[(f' & [= <-] & ?)|(g & Hout & Hwr)]]; [done|congruence|].
  unfold bind at 1. unfold open_w. rewrite Hout, Hwr. by eexists.
Qed.

(** The [try] block of a run whose read of line number [k] fails. *)
Lemma try_block_read_fails input_file output_file w k e :
  opens_ok input_file output_file w ->
  let lines := delivered_lines input_file output_file w in
  (k <= length lines)%nat ->
  quiet_before md5 lines k w ->
  read_fault w k = Some e ->
  try_block md5 input_file output_file w
  = (inl e,
     set_fs (<[output_file :=
                 written_file output_file
                   (write_text (os w) (concat (kept md5 ∅ (take k lines)))) w]>
               (fs w)) w).
Proof.
  intros Hop lines Hk Hq Hr.
  rewrite try_block_opened by done. fold lines.
  pose proof (quiet_prefix md5 _ _ _ Hq) as Hq'.
  rewrite <- (take_drop k lines) at 1.
  unfold bind. rewrite for_lines_app by exact Hq'.
  rewrite for_lines_read_fault with (e := e).
  - f_equal. unfold set_fs. simpl. f_equal. by rewrite alter_insert_eq.
  - rewrite length_take. simpl. by rewrite Nat.min_l.
Qed.

End Frame.

(** ** More about what is kept *)

Lemma size_insert_bytes (x : bytes) (X : gset bytes) :
  x ∉ X -> size ({[x]} ∪ X) = S (size X).
Proof.
  intros Hx. rewrite size_union by set_solver. by rewrite size_singleton.
Qed.

Section Kept.

Variable md5 : bytes -> bytes.

Implicit Types (seen : gset bytes) (lines pre post : list str) (line : str).

Local Abbreviation kept := (kept md5).
Local Abbreviation line_hash := (line_hash md5).

Lemma kept_sublist seen lines : kept seen lines `sublist_of` lines.
Proof.
  revert seen. induction lines as [|l lines IH]; intros seen; [done|].
  rewrite kept_cons. case_decide.
  - by apply sublist_skip.
  - by apply sublist_cons.
Qed.

(** The digest of every line is in [seen] or is the digest of a kept
    line. *)
Lemma kept_covers seen lines line :
  line ∈ lines ->
  line_hash line ∈ seen
  \/ exists line', line' ∈ kept seen lines /\ line_hash line' = line_hash line.
Proof.
  revert seen. induction lines as [|l lines IH]; intros seen.
  - by intros ?%elem_of_nil.
  - rewrite kept_cons. intros [->|Hin]%elem_of_cons.
    + case_decide as Hl; [|by left].
      right. exists l. split; [apply list_elem_of_here|done].
    + case_decide as Hl.
      * destruct (IH ({[line_hash l]} ∪ seen) Hin) as [Hs|(l' & Hl' & Heq)].
        -- apply elem_of_union in Hs as [Hs%elem_of_singleton|Hs]; [|by left].
           right. exists l. split; [apply list_elem_of_here|done].
        -- right. exists l'. split; [by apply list_elem_of_further|done].
      * by apply IH.
Qed.

(** As many lines are kept as there are digests not seen before. *)
Lemma kept_length seen lines :
  length (kept seen lines) = size (list_to_set (line_hash <$> lines) ∖ seen).
Proof.
  revert seen. induction lines as [|l lines IH]; intros seen.
  - simpl. rewrite difference_disjoint_L by set_solver.
    symmetry. apply size_empty.
  - rewrite kept_cons, fmap_cons. cbn [list_to_set foldr].
    case_decide as Hl.
    + cbn [length]. rewrite IH.
      assert (({[line_hash l]} ∪ list_to_set (line_hash <$> lines)) ∖ seen
              =@{gset bytes}
              {[line_hash l]}
                ∪ list_to_set (line_hash <$> lines) ∖ ({[line_hash l]} ∪ seen))
        as -> by (apply set_eq; intros x; destruct (decide (x = line_hash l));
                  set_solver).
      rewrite size_insert_bytes; [done|set_solver].
    + rewrite IH. f_equal. set_solver.
Qed.

(** Lines with pairwise different digests, none of them seen before, are
    all kept. *)
Lemma kept_all seen lines :
  NoDup (line_hash <$> lines) ->
  (forall line, line ∈ lines -> line_hash line ∉ seen) ->
  kept seen lines = lines.
Proof.
  revert seen. induction lines as [|l lines IH]; intros seen Hnd Hnew; [done|].
  rewrite fmap_cons in Hnd. apply NoDup_cons in Hnd as [Hl Hnd].
  rewrite kept_cons, decide_True by (apply Hnew, list_elem_of_here).
  f_equal. apply IH; [done|].
  intros line Hin. rewrite not_elem_of_union, not_elem_of_singleton. split.
  - intros Heq. apply Hl. rewrite <- Heq. by apply list_elem_of_fmap_2.
  - by apply Hnew, list_elem_of_further.
Qed.

Lemma kept_full_length seen lines :
  length (kept seen lines) = length lines -> kept seen lines = lines.
Proof.
  revert seen. induction lines as [|l lines IH]; intros seen; [done|].
  rewrite kept_cons. case_decide.
  - cbn [length]. intros [= Hlen]. f_equal. by apply IH.
  - pose proof (kept_length_le md5 seen lines). cbn [length]. lia.
Qed.

End Kept.

(** The stored lines "a\n", "b\r\n", "a\r", "b\n", "c" on Windows: the
    third and the fourth are duplicates, and every terminator written is
    "\r\n". *)
Example three_endings_result :
  fst (remove_duplicates MD5.digest "in.txt" "out.txt" three_endings) = Returned 3 2
  /\ file_data "out.txt" (snd (remove_duplicates MD5.digest "in.txt" "out.txt" three_endings))
     = Some (txt "a" ++ [CR; LF] ++ txt "b" ++ [CR; LF] ++ txt "c").
Proof. split; vm_compute; reflexivity. Qed.

(** ** Further properties of remove_duplicates *)

(** X1: a run, whether it returns or fails, changes no file other than
    the one its output path names: an entry of the file system that
    differs after the call, in content or in permissions, is the entry
    of [output_file].  The input is among the files left alone unless it
    is that entry. *)
Theorem other_files_untouched
  (md5 : bytes -> bytes) (input_file output_file q : path) (w : world) :
  fs (snd (remove_duplicates md5 input_file output_file w)) !! q <> fs w !! q ->
  q = output_file.
Proof.
  intros Hdiff. destruct (decide (q = output_file)) as [|Hq]; [done|].
  exfalso. apply Hdiff. unfold remove_duplicates.
  pose proof (try_block_frame md5 input_file output_file w q Hq) as Hfr.
  destruct (try_block md5 input_file output_file w) as [[e|[u d]] w1].
  - destruct e; simpl in *; by rewrite Hfr.
  - done.
Qed.

Lemma other_files_untouched_witness :
  fs (snd (remove_duplicates MD5.digest "in.txt" "out.txt" bad_sector)) !! "out.txt"%string
  <> fs bad_sector !! "out.txt"%string
  /\ "out.txt"%string = "out.txt"%string.
Proof.
  assert (fs (snd (remove_duplicates MD5.digest "in.txt" "out.txt" bad_sector))
            !! "out.txt"%string
          <> fs bad_sector !! "out.txt"%string) as Hdiff
    by (vm_compute; discriminate).
  split; [exact Hdiff|].
  exact (other_files_untouched MD5.digest "in.txt" "out.txt" "out.txt" bad_sector Hdiff).
Defined.

(** X2: when the input is missing or unreadable, or the output may not be
    written, the run ends through sys.exit(1) after one message, and the
    file system is as before: no output file is created or truncated. *)
Theorem failed_open_changes_nothing
  (md5 : bytes -> bytes) (input_file output_file : path) (w : world) :
  fs w !! input_file = None
  \/ (exists f, fs w !! input_file = Some f /\ f_readable f = false)
  \/ (exists g, fs w !! output_file = Some g /\ f_writable g = false) ->
  exists w',
    remove_duplicates md5 input_file output_file w = (SystemExit 1, w')
    /\ fs w' = fs w
    /\ length (stdout w') = S (length (stdout w)).
Proof.
  intros (e & Htry)%(try_block_not_opened md5).
  unfold remove_duplicates. rewrite Htry.
  destruct e; eexists; (split; [reflexivity|]); simpl;
    (split; [reflexivity|]); rewrite length_app; simpl; lia.
Qed.

Lemma failed_open_changes_nothing_witness :
  (fs read_only_output !! "in.txt"%string = None
   \/ (exists f, fs read_only_output !! "in.txt"%string = Some f /\ f_readable f = false)
   \/ (exists g, fs read_only_output !! "out.txt"%string = Some g /\ f_writable g = false))
  /\ exists w',
       remove_duplicates MD5.digest "in.txt" "out.txt" read_only_output = (SystemExit 1, w')
       /\ fs w' = fs read_only_output
       /\ length (stdout w') = S (length (stdout read_only_output)).
Proof.
  assert (fs read_only_output !! "in.txt"%string = None
          \/ (exists f, fs read_only_output !! "in.txt"%string = Some f
                        /\ f_readable f = false)
          \/ (exists g, fs read_only_output !! "out.txt"%string = Some g
                        /\ f_writable g = false)) as H.
  { right. right. eexists. split; [vm_compute; reflexivity|reflexivity]. }
  split; [exact H|].
  exact (failed_open_changes_nothing MD5.digest "in.txt" "out.txt" read_only_output H).
Defined.

(** X3: when the read of line number k fails, the run ends through
    sys.exit(1) and the output file is left holding the first occurrences
    among the k lines read before. *)
Theorem read_failure_keeps_what_was_written
  (md5 : bytes -> bytes) (input_file output_file : path) (w : world)
  (k : nat) (e : io_error) :
  opens_ok input_file output_file w ->
  (k <= length (delivered_lines input_file output_file w))%nat ->
  quiet_before md5 (delivered_lines input_file output_file w) k w ->
  read_fault w k = Some e ->
  exists w',
    remove_duplicates md5 input_file output_file w = (SystemExit 1, w')
    /\ file_data output_file w'
       = Some (write_text (os w)
                 (concat (first_occurrences md5
                            (take k (delivered_lines input_file output_file w))))).
Proof.
  intros Hop Hk Hq Hr.
  unfold remove_duplicates.
  rewrite (try_block_read_fails md5 _ _ _ k e) by done.
  rewrite <- kept_first_occurrences.
  destruct e; eexists; (split; [reflexivity|]);
    unfold file_data; simpl; by rewrite lookup_insert_eq.
Qed.

Lemma read_failure_keeps_what_was_written_witness :
  opens_ok "in.txt" "out.txt" bad_sector
  /\ (2 <= length (delivered_lines "in.txt" "out.txt" bad_sector))%nat
  /\ quiet_before MD5.digest (delivered_lines "in.txt" "out.txt" bad_sector) 2 bad_sector
  /\ read_fault bad_sector 2 = Some (OtherError "[Errno 5] Input/output error")
  /\ exists w',
       remove_duplicates MD5.digest "in.txt" "out.txt" bad_sector = (SystemExit 1, w')
       /\ file_data "out.txt" w'
          = Some (write_text (os bad_sector)
                    (concat (first_occurrences MD5.digest
                               (take 2 (delivered_lines "in.txt" "out.txt" bad_sector))))).
Proof.
  assert (opens_ok "in.txt" "out.txt" bad_sector) as Hop.
  { split.
    - eexists. split; [vm_compute; reflexivity|reflexivity].
    - intros g Hg. vm_compute in Hg. discriminate Hg. }
  assert (2 <= length (delivered_lines "in.txt" "out.txt" bad_sector))%nat as Hk
    by (vm_compute; lia).
  assert (quiet_before MD5.digest (delivered_lines "in.txt" "out.txt" bad_sector) 2
            bad_sector) as Hq.
  { intros i line Hi _. destruct i as [|[|i]]; [| |lia].
    - split; [reflexivity|]. intros _. reflexivity.
    - split; [reflexivity|]. intros _. reflexivity. }
  assert (read_fault bad_sector 2 = Some (OtherError "[Errno 5] Input/output error"))
    as Hr by reflexivity.
  repeat (split; [assumption|]).
  exact (read_failure_keeps_what_was_written MD5.digest "in.txt" "out.txt" bad_sector
           2 _ Hop Hk Hq Hr).
Defined.

(** X4: nothing is lost but repetitions.  The output lines are a
    subsequence of the input lines, every input line has its digest on an
    output line, and when no two different input lines share a digest the
    output holds exactly the lines that occur in the input. *)
Theorem every_digest_survives
  (md5 : bytes -> bytes) (input_file output_file : path) (w : world) :
  fault_free input_file output_file w ->
  let lines := delivered_lines input_file output_file w in
  exists u d w' ws,
    remove_duplicates md5 input_file output_file w = (Returned u d, w')
    /\ file_lines <$> file_data output_file w' = Some ws
    /\ ws `sublist_of` lines
    /\ (forall line, line ∈ lines ->
          exists line', line' ∈ ws /\ line_hash md5 line' = line_hash md5 line)
    /\ ((forall a b, a ∈ lines -> b ∈ lines ->
           line_hash md5 a = line_hash md5 b -> a = b) ->
        forall line, line ∈ ws <-> line ∈ lines).
Proof.
  intros Hff lines.
  assert (forall line, line ∈ lines ->
            exists line', line' ∈ kept md5 ∅ lines
                          /\ line_hash md5 line' = line_hash md5 line) as Hcov.
  { intros line Hin.
    by destruct (kept_covers md5 ∅ lines line Hin) as [?%elem_of_empty|?]. }
  exists (length (kept md5 ∅ lines)), (length lines - length (kept md5 ∅ lines))%nat,
         (snd (remove_duplicates md5 input_file output_file w)), (kept md5 ∅ lines).
  pose proof (file_lines_kept md5 (os w) input_file output_file w ∅) as Hfl.
  rewrite remove_duplicates_ok by done. cbn [snd]. fold lines in Hfl |- *.
  rewrite file_data_written. cbn [fmap option_fmap option_map]. rewrite Hfl.
  split; [done|]. split; [done|].
  split; [apply kept_sublist|]. split; [exact Hcov|].
  intros Hinj line. split; [apply kept_subset|].
  intros Hin. destruct (Hcov line Hin) as (line' & Hin' & Heq).
  by rewrite <- (Hinj line' line (kept_subset md5 _ _ _ Hin') Hin Heq).
Qed.

Lemma every_digest_survives_witness :
  fault_free "in.txt" "out.txt" scenario_A
  /\ exists u d w' ws,
       remove_duplicates MD5.digest "in.txt" "out.txt" scenario_A = (Returned u d, w')
       /\ file_lines <$> file_data "out.txt" w' = Some ws
       /\ ws `sublist_of` delivered_lines "in.txt" "out.txt" scenario_A
       /\ (forall line, line ∈ delivered_lines "in.txt" "out.txt" scenario_A ->
             exists line', line' ∈ ws
                           /\ line_hash MD5.digest line' = line_hash MD5.digest line)
       /\ ((forall a b, a ∈ delivered_lines "in.txt" "out.txt" scenario_A ->
              b ∈ delivered_lines "in.txt" "out.txt" scenario_A ->
              line_hash MD5.digest a = line_hash MD5.digest b -> a = b) ->
           forall line, line ∈ ws <-> line ∈ delivered_lines "in.txt" "out.txt" scenario_A).
Proof.
  assert (fault_free "in.txt" "out.txt" scenario_A) as H by sample_fault_free.
  split; [exact H|].
  exact (every_digest_survives MD5.digest "in.txt" "out.txt" scenario_A H).
Defined.

(** X5: the unique count is the number of different digests among the
    input lines, and the duplicate count is the number of remaining
    lines. *)
Theorem unique_count_counts_digests
  (md5 : bytes -> bytes) (input_file output_file : path) (w : world) :
  fault_free input_file output_file w ->
  let lines := delivered_lines input_file output_file w in
  exists u d w',
    remove_duplicates md5 input_file output_file w = (Returned u d, w')
    /\ u = size (list_to_set (line_hash md5 <$> lines) : gset bytes)
    /\ d = (length lines - u)%nat.
Proof.
  intros Hff lines. do 3 eexists. split; [by apply remove_duplicates_ok|].
  fold lines. rewrite kept_length.
  by rewrite difference_disjoint_L by set_solver.
Qed.

Lemma unique_count_counts_digests_witness :
  fault_free "in.txt" "out.txt" scenario_A
  /\ exists u d w',
       remove_duplicates MD5.digest "in.txt" "out.txt" scenario_A = (Returned u d, w')
       /\ u = size (list_to_set (line_hash MD5.digest
                                   <$> delivered_lines "in.txt" "out.txt" scenario_A)
                    : gset bytes)
       /\ d = (length (delivered_lines "in.txt" "out.txt" scenario_A) - u)%nat.
Proof.
  assert (fault_free "in.txt" "out.txt" scenario_A) as H by sample_fault_free.
  split; [exact H|].
  exact (unique_count_counts_digests MD5.digest "in.txt" "out.txt" scenario_A H).
Defined.

(** X6: the two counts do not depend on the order of the input lines:
    two runs whose inputs hold the same lines in different orders return
    the same pair. *)
Theorem counts_ignore_order
  (md5 : bytes -> bytes) (input1 output1 input2 output2 : path) (w1 w2 : world) :
  fault_free input1 output1 w1 ->
  fault_free input2 output2 w2 ->
  delivered_lines input1 output1 w1 ≡ₚ delivered_lines input2 output2 w2 ->
  exists u d,
    fst (remove_duplicates md5 input1 output1 w1) = Returned u d
    /\ fst (remove_duplicates md5 input2 output2 w2) = Returned u d.
Proof.
  intros H1 H2 Hperm.
  rewrite !remove_duplicates_ok by done. cbn [fst].
  rewrite !kept_length. do 2 eexists. split; [reflexivity|].
  assert (list_to_set (line_hash md5 <$> delivered_lines input2 output2 w2)
          =@{gset bytes}
          list_to_set (line_hash md5 <$> delivered_lines input1 output1 w1)) as ->.
  { apply set_eq. intros x. rewrite !elem_of_list_to_set. by rewrite Hperm. }
  by rewrite (Permutation_length Hperm).
Qed.

Lemma counts_ignore_order_witness :
  fault_free "in.txt" "out.txt" scenario_A
  /\ fault_free "in.txt" "out.txt"
       (single_file Posix "in.txt" (nl "b" ++ nl "c" ++ nl "a" ++ nl "b" ++ nl "a"))
  /\ delivered_lines "in.txt" "out.txt" scenario_A
     ≡ₚ delivered_lines "in.txt" "out.txt"
          (single_file Posix "in.txt" (nl "b" ++ nl "c" ++ nl "a" ++ nl "b" ++ nl "a"))
  /\ exists u d,
       fst (remove_duplicates MD5.digest "in.txt" "out.txt" scenario_A) = Returned u d
       /\ fst (remove_duplicates MD5.digest "in.txt" "out.txt"
                 (single_file Posix "in.txt"
                    (nl "b" ++ nl "c" ++ nl "a" ++ nl "b" ++ nl "a")))
          = Returned u d.
Proof.
  assert (fault_free "in.txt" "out.txt" scenario_A) as H1 by sample_fault_free.
  assert (fault_free "in.txt" "out.txt"
            (single_file Posix "in.txt" (nl "b" ++ nl "c" ++ nl "a" ++ nl "b" ++ nl "a")))
    as H2 by sample_fault_free.
  assert (delivered_lines "in.txt" "out.txt" scenario_A
          ≡ₚ delivered_lines "in.txt" "out.txt"
               (single_file Posix "in.txt"
                  (nl "b" ++ nl "c" ++ nl "a" ++ nl "b" ++ nl "a"))) as Hp.
  { change ([nl "a"; nl "b"; nl "a"; nl "c"; nl "b"]
            ≡ₚ [nl "b"; nl "c"; nl "a"; nl "b"; nl "a"]).
    apply (bool_decide_unpack _). vm_compute. exact I. }
  split; [exact H1|]. split; [exact H2|]. split; [exact Hp|].
  exact (counts_ignore_order MD5.digest _ _ _ _ _ _ H1 H2 Hp).
Defined.

Lemma translate_newlines_id s : CR ∉ s -> translate_newlines false s = s.
Proof.
  intros Hcr. rewrite <- (translate_write_text Posix s Hcr) at 2.
  f_equal. induction s as [|c s IH]; [done|].
  apply not_elem_of_cons in Hcr as [_ Hcr]. simpl.
  case_decide as Hc; [subst c|]; simpl; by rewrite <- IH.
Qed.

Lemma write_text_posix s : write_text Posix s = s.
Proof.
  induction s as [|c s IH]; [done|]. simpl.
  case_decide as Hc; [subst c|]; simpl; by rewrite IH.
Qed.

(** X7: the duplicate count is 0 exactly when the digests of the input
    lines are pairwise different, and then the output holds all the
    input lines, in order. *)
Theorem no_repetition_no_loss
  (md5 : bytes -> bytes) (input_file output_file : path) (w : world) :
  fault_free input_file output_file w ->
  let lines := delivered_lines input_file output_file w in
  exists u d w' ws,
    remove_duplicates md5 input_file output_file w = (Returned u d, w')
    /\ file_lines <$> file_data output_file w' = Some ws
    /\ (d = 0%nat <-> NoDup (line_hash md5 <$> lines))
    /\ (d = 0%nat -> ws = lines /\ u = length lines).
Proof.
  intros Hff lines.
  pose proof (file_lines_kept md5 (os w) input_file output_file w ∅) as Hfl.
  pose proof (kept_length_le md5 ∅ lines) as Hle.
  exists (length (kept md5 ∅ lines)), (length lines - length (kept md5 ∅ lines))%nat,
         (snd (remove_duplicates md5 input_file output_file w)), (kept md5 ∅ lines).
  rewrite remove_duplicates_ok by done. cbn [snd]. fold lines in Hfl |- *.
  rewrite file_data_written. cbn [fmap option_fmap option_map]. rewrite Hfl.
  split; [done|]. split; [done|].
  assert (length lines - length (kept md5 ∅ lines) = 0
          -> kept md5 ∅ lines = lines)%nat as Hfull
    by (intros ?; apply kept_full_length; lia).
  split; [split|].
  - intros Hd%Hfull. rewrite <- Hd. apply kept_NoDup_hashes.
  - intros Hnd. rewrite kept_all; [lia|done|]. intros ? _. apply not_elem_of_empty.
  - intros Hd%Hfull. by rewrite Hd.
Qed.

Lemma no_repetition_no_loss_witness :
  fault_free "in.txt" "out.txt" (single_file Windows "in.txt" (nl "x" ++ nl "y" ++ txt "z"))
  /\ exists u d w' ws,
       remove_duplicates MD5.digest "in.txt" "out.txt"
         (single_file Windows "in.txt" (nl "x" ++ nl "y" ++ txt "z"))
       = (Returned u d, w')
       /\ file_lines <$> file_data "out.txt" w' = Some ws
       /\ (d = 0%nat
           <-> NoDup (line_hash MD5.digest
                        <$> delivered_lines "in.txt" "out.txt"
                              (single_file Windows "in.txt" (nl "x" ++ nl "y" ++ txt "z"))))
       /\ (d = 0%nat
           -> ws = delivered_lines "in.txt" "out.txt"
                     (single_file Windows "in.txt" (nl "x" ++ nl "y" ++ txt "z"))
              /\ u = length (delivered_lines "in.txt" "out.txt"
                               (single_file Windows "in.txt"
                                  (nl "x" ++ nl "y" ++ txt "z")))).
Proof.
  assert (fault_free "in.txt" "out.txt"
            (single_file Windows "in.txt" (nl "x" ++ nl "y" ++ txt "z"))) as H
    by sample_fault_free.
  split; [exact H|].
  exact (no_repetition_no_loss MD5.digest "in.txt" "out.txt" _ H).
Defined.

(** X8: on a POSIX system, an input without carriage returns whose lines
    have pairwise different digests is copied byte for byte. *)
Theorem posix_copy_is_exact
  (md5 : bytes -> bytes) (input_file output_file : path) (w : world) (data : bytes) :
  fault_free input_file output_file w ->
  input_file <> output_file ->
  os w = Posix ->
  file_data input_file w = Some data ->
  CR ∉ data ->
  NoDup (line_hash md5 <$> file_lines data) ->
  exists w',
    remove_duplicates md5 input_file output_file w
    = (Returned (length (file_lines data)) 0, w')
    /\ file_data output_file w' = Some data.
Proof.
  intros Hff Hio Hos Hdata Hcr Hnd.
  assert (delivered_lines input_file output_file w = file_lines data) as Hlines.
  { unfold delivered_lines. rewrite decide_False by done.
    unfold file_data in Hdata. by rewrite Hdata. }
  exists (snd (remove_duplicates md5 input_file output_file w)).
  rewrite remove_duplicates_ok by done. cbn [snd].
  rewrite file_data_written, Hlines, Hos.
  rewrite kept_all; [|done|intros ? _; apply not_elem_of_empty].
  rewrite Nat.sub_diag. split; [done|].
  rewrite write_text_posix. unfold file_lines.
  by rewrite split_lines_concat, translate_newlines_id.
Qed.

Lemma posix_copy_is_exact_witness :
  fault_free "in.txt" "out.txt" (single_file Posix "in.txt" (nl "x" ++ nl "y" ++ txt "z"))
  /\ "in.txt"%string <> "out.txt"%string
  /\ (CR ∉ nl "x" ++ nl "y" ++ txt "z")
  /\ NoDup (line_hash MD5.digest <$> file_lines (nl "x" ++ nl "y" ++ txt "z"))
  /\ exists w',
       remove_duplicates MD5.digest "in.txt" "out.txt"
         (single_file Posix "in.txt" (nl "x" ++ nl "y" ++ txt "z"))
       = (Returned (length (file_lines (nl "x" ++ nl "y" ++ txt "z"))) 0, w')
       /\ file_data "out.txt" w' = Some (nl "x" ++ nl "y" ++ txt "z").
Proof.
  assert (fault_free "in.txt" "out.txt"
            (single_file Posix "in.txt" (nl "x" ++ nl "y" ++ txt "z"))) as H
    by sample_fault_free.
  assert ("in.txt"%string <> "out.txt"%string) as Hio by discriminate.
  assert (CR ∉ nl "x" ++ nl "y" ++ txt "z") as Hcr
    by (refine (bool_decide_unpack _ _); vm_compute; exact I).
  assert (NoDup (line_hash MD5.digest <$> file_lines (nl "x" ++ nl "y" ++ txt "z")))
    as Hnd by (refine (bool_decide_unpack _ _); vm_compute; exact I).
  repeat (split; [assumption|]).
  exact (posix_copy_is_exact MD5.digest "in.txt" "out.txt" _ _ H Hio eq_refl eq_refl
           Hcr Hnd).
Defined.

(** X9: the first line of the input is always kept: the output of a
    non-empty input starts with it, and the unique count is at least 1. *)
Theorem first_line_is_kept
  (md5 : bytes -> bytes) (input_file output_file : path) (w : world)
  (line : str) (rest : list str) :
  fault_free input_file output_file w ->
  delivered_lines input_file output_file w = line :: rest ->
  exists u d w' ws,
    remove_duplicates md5 input_file output_file w = (Returned (S u) d, w')
    /\ file_lines <$> file_data output_file w' = Some (line :: ws).
Proof.
  intros Hff Hlines.
  pose proof (file_lines_kept md5 (os w) input_file output_file w ∅) as Hfl.
  assert (kept md5 ∅ (line :: rest)
          = line :: kept md5 ({[line_hash md5 line]} ∪ ∅) rest) as Hk
    by (rewrite kept_cons; apply decide_True, not_elem_of_empty).
  exists (length (kept md5 ({[line_hash md5 line]} ∪ ∅) rest)),
         (length (line :: rest) - S (length (kept md5 ({[line_hash md5 line]} ∪ ∅) rest)))%nat,
         (snd (remove_duplicates md5 input_file output_file w)),
         (kept md5 ({[line_hash md5 line]} ∪ ∅) rest).
  rewrite remove_duplicates_ok by done. cbn [snd].
  rewrite file_data_written. cbn [fmap option_fmap option_map].
  rewrite Hfl, Hlines, Hk. done.
Qed.

Lemma first_line_is_kept_witness :
  fault_free "in.txt" "out.txt" scenario_A
  /\ delivered_lines "in.txt" "out.txt" scenario_A
     = nl "a" :: [nl "b"; nl "a"; nl "c"; nl "b"]
  /\ exists u d w' ws,
       remove_duplicates MD5.digest "in.txt" "out.txt" scenario_A = (Returned (S u) d, w')
       /\ file_lines <$> file_data "out.txt" w' = Some (nl "a" :: ws).
Proof.
  assert (fault_free "in.txt" "out.txt" scenario_A) as H by sample_fault_free.
  assert (delivered_lines "in.txt" "out.txt" scenario_A
          = nl "a" :: [nl "b"; nl "a"; nl "c"; nl "b"]) as Hl by (vm_compute; reflexivity).
  split; [exact H|]. split; [exact Hl|].
  exact (first_line_is_kept MD5.digest "in.txt" "out.txt" scenario_A _ _ H Hl).
Defined.

(** X10: on a POSIX system the output holds no carriage return, whatever
    line endings the input uses. *)
Theorem posix_output_has_no_CR
  (md5 : bytes -> bytes) (input_file output_file : path) (w : world) :
  fault_free input_file output_file w ->
  os w = Posix ->
  exists u d w' data,
    remove_duplicates md5 input_file output_file w = (Returned u d, w')
    /\ file_data output_file w' = Some data
    /\ CR ∉ data.
Proof.
  intros Hff Hos. do 4 eexists. split; [by apply remove_duplicates_ok|].
  rewrite file_data_written. split; [done|].
  rewrite Hos, write_text_posix.
  intros (l & Hl%kept_subset & Hcr)%elem_of_concat.
  by apply (delivered_lines_no_CR input_file output_file w l).
Qed.

Lemma posix_output_has_no_CR_witness :
  fault_free "in.txt" "out.txt" (mixed_endings Posix)
  /\ os (mixed_endings Posix) = Posix
  /\ exists u d w' data,
       remove_duplicates MD5.digest "in.txt" "out.txt" (mixed_endings Posix)
       = (Returned u d, w')
       /\ file_data "out.txt" w' = Some data
       /\ (CR ∉ data).
Proof.
  assert (fault_free "in.txt" "out.txt" (mixed_endings Posix)) as H by sample_fault_free.
  split; [exact H|]. split; [reflexivity|].
  exact (posix_output_has_no_CR MD5.digest "in.txt" "out.txt" _ H eq_refl).
Defined.

(** X11: lines appended to the input only append to the output: the
    output for a longer input starts with the output for the shorter
    one, and neither count goes down. *)
Theorem appended_input_appends_output
  (md5 : bytes -> bytes) (input1 output1 input2 output2 : path) (w1 w2 : world)
  (more : list str) :
  fault_free input1 output1 w1 ->
  fault_free input2 output2 w2 ->
  os w1 = os w2 ->
  delivered_lines input2 output2 w2 = delivered_lines input1 output1 w1 ++ more ->
  exists u1 d1 w1' data1 u2 d2 w2' data2,
    remove_duplicates md5 input1 output1 w1 = (Returned u1 d1, w1')
    /\ remove_duplicates md5 input2 output2 w2 = (Returned u2 d2, w2')
    /\ file_data output1 w1' = Some data1
    /\ file_data output2 w2' = Some (data1 ++ data2)
    /\ (u1 <= u2)%nat /\ (d1 <= d2)%nat.
Proof.
  intros H1 H2 Hos Hlines.
  set (lines := delivered_lines input1 output1 w1) in *.
  set (seen := list_to_set (line_hash md5 <$> lines) ∪ (∅ : gset bytes)).
  pose proof (kept_length_le md5 ∅ lines).
  pose proof (kept_length_le md5 seen more).
  do 8 eexists.
  split; [by apply remove_duplicates_ok|].
  split; [by apply remove_duplicates_ok|].
  rewrite !file_data_written. split; [reflexivity|].
  rewrite Hlines, kept_app, concat_app, write_text_app, Hos. fold lines seen.
  split; [reflexivity|].
  rewrite !length_app. lia.
Qed.

Lemma appended_input_appends_output_witness :
  fault_free "in.txt" "out.txt" (single_file Posix "in.txt" (nl "a" ++ nl "b" ++ nl "a"))
  /\ fault_free "in.txt" "out.txt" scenario_A
  /\ delivered_lines "in.txt" "out.txt" scenario_A
     = delivered_lines "in.txt" "out.txt"
         (single_file Posix "in.txt" (nl "a" ++ nl "b" ++ nl "a"))
       ++ [nl "c"; nl "b"]
  /\ exists u1 d1 w1' data1 u2 d2 w2' data2,
       remove_duplicates MD5.digest "in.txt" "out.txt"
         (single_file Posix "in.txt" (nl "a" ++ nl "b" ++ nl "a"))
       = (Returned u1 d1, w1')
       /\ remove_duplicates MD5.digest "in.txt" "out.txt" scenario_A = (Returned u2 d2, w2')
       /\ file_data "out.txt" w1' = Some data1
       /\ file_data "out.txt" w2' = Some (data1 ++ data2)
       /\ (u1 <= u2)%nat /\ (d1 <= d2)%nat.
Proof.
  assert (fault_free "in.txt" "out.txt"
            (single_file Posix "in.txt" (nl "a" ++ nl "b" ++ nl "a"))) as H1
    by sample_fault_free.
  assert (fault_free "in.txt" "out.txt" scenario_A) as H2 by sample_fault_free.
  assert (delivered_lines "in.txt" "out.txt" scenario_A
          = delivered_lines "in.txt" "out.txt"
              (single_file Posix "in.txt" (nl "a" ++ nl "b" ++ nl "a"))
            ++ [nl "c"; nl "b"]) as Hl by (vm_compute; reflexivity).
  split; [exact H1|]. split; [exact H2|]. split; [exact Hl|].
  exact (appended_input_appends_output MD5.digest _ _ _ _ _ _ _ H1 H2 eq_refl Hl).
Defined.

(** ** main *)

Section MainLemmas.

Variable md5 : bytes -> bytes.

Implicit Types (p : process) (w : world) (input_file output_file q : path)
  (ns : args.t).

Lemma fault_free_print input_file output_file s w :
  fault_free input_file output_file w ->
  fault_free input_file output_file (print s w).
Proof. done. Qed.

Lemma failure_print input_file output_file s w e :
  failure md5 input_file output_file w e ->
  failure md5 input_file output_file (print s w) e.
Proof.
  intros [Hin|f Hin Hrd|f g Hin Hrd Hout Hwr|k e' Hop Hk Hq Hr
         |k line e' Hop Hk Hq Hr Hl Hw].
  - by apply input_missing.
  - by eapply input_unreadable.
  - by eapply output_unwritable.
  - by apply (read_fails md5 _ _ _ k).
  - by apply (write_fails md5 _ _ _ k line).
Qed.

(** What leaves [remove_duplicates]: the two counts, or sys.exit(1). *)
Lemma remove_duplicates_outcome input_file output_file w :
  (exists u d, fst (remove_duplicates md5 input_file output_file w) = Returned u d)
  \/ fst (remove_duplicates md5 input_file output_file w) = SystemExit 1.
Proof.
  unfold remove_duplicates.
  destruct (try_block md5 input_file output_file w) as [[[| |msg]|[u d]] w1];
    simpl; eauto.
Qed.

Lemma process_files_frame input_file output_file p q :
  q <> output_file ->
  fs (machine (snd (process_files md5 input_file output_file p))) !! q
  = fs (machine p) !! q.
Proof.
  intros Hq. unfold process_files.
  pose proof (remove_duplicates_frame md5 input_file output_file
                (machine (pprint (processing_message input_file) p)) q Hq) as Hfr.
  destruct (remove_duplicates md5 input_file output_file
              (machine (pprint (processing_message input_file) p)))
    as [[u d|e|code] w1]; simpl in *; done.
Qed.

Lemma process_files_status input_file output_file p :
  exit_status (fst (process_files md5 input_file output_file p)) = 0
  \/ exit_status (fst (process_files md5 input_file output_file p)) = 1.
Proof.
  unfold process_files.
  destruct (remove_duplicates_outcome input_file output_file
              (machine (pprint (processing_message input_file) p)))
    as [(u & d & Hr)|Hr];
    destruct (remove_duplicates md5 input_file output_file
                (machine (pprint (processing_message input_file) p)))
      as [o w1]; simpl in Hr; subst o; simpl; auto.
Qed.

(** [process_files] when nothing fails. *)
Lemma process_files_ok input_file output_file p :
  fault_free input_file output_file (machine p) ->
  let lines := delivered_lines input_file output_file (machine p) in
  let u := length (first_occurrences md5 lines) in
  exists p',
    process_files md5 input_file output_file p = (MainReturned, p')
    /\ stdout (machine p')
       = stdout (machine p)
         ++ [processing_message input_file; done_message output_file;
             unique_message u; duplicate_message (length lines - u);
             total_message (length lines)]
    /\ file_data output_file (machine p')
       = Some (write_text (os (machine p)) (concat (first_occurrences md5 lines))).
Proof.
  intros Hff lines u. unfold process_files.
  rewrite remove_duplicates_ok
    by (by apply fault_free_print).
  change (delivered_lines input_file output_file
            (machine (pprint (processing_message input_file) p))) with lines.
  rewrite kept_first_occurrences. fold u.
  pose proof (kept_length_le md5 ∅ lines) as Hle.
  rewrite kept_first_occurrences in Hle. fold u in Hle.
  eexists. split; [reflexivity|]. split.
  - simpl. rewrite <- !app_assoc. simpl.
    by replace (u + (length lines - u))%nat with (length lines) by lia.
  - unfold file_data. simpl. by rewrite lookup_insert_eq.
Qed.

(** [process_files] when an I/O error occurs. *)
Lemma process_files_fails input_file output_file p e :
  failure md5 input_file output_file (machine p) e ->
  exists p',
    process_files md5 input_file output_file p = (MainExit 1, p')
    /\ stdout (machine p')
       = stdout (machine p)
         ++ [processing_message input_file;
             error_message input_file output_file e].
Proof.
  intros Hf%(failure_print _ _ (processing_message input_file)).
  apply try_block_fails in Hf as (w1 & Htry & Hout).
  unfold process_files, remove_duplicates.
  change (machine (pprint (processing_message input_file) p))
    with (print (processing_message input_file) (machine p)).
  rewrite Htry.
  destruct e; eexists; (split; [reflexivity|]); simpl; rewrite Hout; simpl;
    by rewrite <- app_assoc.
Qed.

Lemma resolved_Some ns input_file output_file :
  resolved ns = Some (input_file, output_file) ->
  nonempty (py_or (args.input_file_alt ns) (args.input_file ns)) = Some input_file
  /\ nonempty (py_or (args.output_file_alt ns) (args.output_file ns)) = Some output_file.
Proof.
  unfold resolved.
  destruct (nonempty (py_or _ (args.input_file ns))) as [i|]; [|done].
  destruct (nonempty (py_or _ (args.output_file ns))) as [o|]; [|done].
  by intros [= -> ->].
Qed.

Lemma os_path_exists_true q w : os_path_exists q w = true <-> is_Some (fs w !! q).
Proof. unfold os_path_exists. apply bool_decide_eq_true. Qed.

Lemma os_path_exists_false q w : os_path_exists q w = false <-> fs w !! q = None.
Proof.
  unfold os_path_exists. rewrite bool_decide_eq_false.
  by rewrite <- eq_None_not_Some.
Qed.

(** [main] once the paths are known and the input exists. *)
Lemma main_resolved ns input_file output_file p :
  resolved ns = Some (input_file, output_file) ->
  is_Some (fs (machine p) !! input_file) ->
  main md5 ns p
  = if os_path_exists output_file (machine p) then
      match input (overwrite_prompt output_file) p with
      | (inl e, p) => (MainRaised e, p)
      | (inr response, p) =>
          if bool_decide (lower response ∉ answers) then
            (MainExit 0, pprint cancelled_message p)
          else process_files md5 input_file output_file p
      end
    else process_files md5 input_file output_file p.
Proof.
  intros [Hi Ho]%resolved_Some Hin%os_path_exists_true.
  unfold main. by rewrite Hi, Ho, Hin.
Qed.

(** [main] after the user has agreed, or had nothing to agree to. *)
Lemma main_goes_ahead ns input_file output_file p :
  resolved ns = Some (input_file, output_file) ->
  is_Some (fs (machine p) !! input_file) ->
  fs (machine p) !! output_file = None \/ agrees p ->
  exists p0,
    main md5 ns p = process_files md5 input_file output_file p0
    /\ machine p0 = machine p.
Proof.
  intros Hres Hin Hgo. rewrite (main_resolved _ _ _ _ Hres Hin).
  destruct (os_path_exists output_file (machine p)) eqn:Hex.
  - destruct Hgo as [Hnone|(r & rest & Hstdin & Hyes)].
    { apply os_path_exists_true in Hex. rewrite Hnone in Hex. by destruct Hex. }
    unfold input. rewrite Hstdin.
    rewrite bool_decide_eq_false_2 by (by intros ?).
    by eexists.
  - by exists p.
Qed.

End MainLemmas.

(** X12: [main] never changes a file it was not asked to: whatever the
    arguments and the answers typed, a file that differs after the run is
    the output file named by the arguments, the input file existed, and
    the output either did not exist before or the user agreed to
    overwrite it. *)
Theorem main_changes_only_the_agreed_output
  (md5 : bytes -> bytes) (ns : args.t) (p : process) (q : path) :
  fs (machine (snd (main md5 ns p))) !! q <> fs (machine p) !! q ->
  exists input_file,
    resolved ns = Some (input_file, q)
    /\ is_Some (fs (machine p) !! input_file)
    /\ (fs (machine p) !! q = None \/ agrees p).
Proof.
  intros Hchg.
  destruct (resolved ns) as [[input_file output_file]|] eqn:Hres.
  - destruct (os_path_exists input_file (machine p)) eqn:Hin.
    + apply os_path_exists_true in Hin.
      rewrite (main_resolved md5 _ _ _ _ Hres Hin) in Hchg.
      destruct (decide (q = output_file)) as [->|Hq].
      * exists input_file. split; [done|]. split; [done|].
        destruct (os_path_exists output_file (machine p)) eqn:Hout;
          [|left; by apply os_path_exists_false].
        right. unfold input in Hchg.
        destruct (stdin p) as [|r rest] eqn:Hstdin; [done|].
        destruct (bool_decide (lower r ∉ answers)) eqn:Hans; [done|].
        exists r, rest. split; [done|].
        apply bool_decide_eq_false in Hans. by apply dec_stable.
      * exfalso. apply Hchg.
        destruct (os_path_exists output_file (machine p));
          [|by apply process_files_frame].
        unfold input. destruct (stdin p) as [|r rest]; [done|].
        destruct (bool_decide (lower r ∉ answers)); [done|].
        by rewrite process_files_frame.
    + exfalso. apply Hchg. apply resolved_Some in Hres as [Hi Ho].
      unfold main. by rewrite Hi, Ho, Hin.
  - exfalso. apply Hchg. unfold resolved in Hres. unfold main.
    destruct (nonempty (py_or _ (args.input_file ns))); [|done].
    by destruct (nonempty (py_or _ (args.output_file ns))).
Qed.

Lemma main_changes_only_the_agreed_output_witness :
  fs (machine (snd (main MD5.digest (positional "in.txt" "out.txt")
                      (console existing_output ["Yes"%string])))) !! "out.txt"%string
  <> fs (machine (console existing_output ["Yes"%string])) !! "out.txt"%string
  /\ exists input_file,
       resolved (positional "in.txt" "out.txt") = Some (input_file, "out.txt"%string)
       /\ is_Some (fs (machine (console existing_output ["Yes"%string])) !! input_file)
       /\ (fs (machine (console existing_output ["Yes"%string])) !! "out.txt"%string = None
           \/ agrees (console existing_output ["Yes"%string])).
Proof.
  assert (fs (machine (snd (main MD5.digest (positional "in.txt" "out.txt")
                              (console existing_output ["Yes"%string]))))
            !! "out.txt"%string
          <> fs (machine (console existing_output ["Yes"%string])) !! "out.txt"%string)
    as H by (vm_compute; discriminate).
  split; [exact H|].
  exact (main_changes_only_the_agreed_output MD5.digest _ _ _ H).
Defined.

(** [main] from the arguments to the report, when nothing fails. *)
Lemma main_report
  (md5 : bytes -> bytes) (ns : args.t) (p : process) (input_file output_file : path) :
  resolved ns = Some (input_file, output_file) ->
  fs (machine p) !! output_file = None \/ agrees p ->
  fault_free input_file output_file (machine p) ->
  let lines := delivered_lines input_file output_file (machine p) in
  let u := length (first_occurrences md5 lines) in
  exists p',
    main md5 ns p = (MainReturned, p')
    /\ stdout (machine p')
       = stdout (machine p)
         ++ [processing_message input_file; done_message output_file;
             unique_message u; duplicate_message (length lines - u);
             total_message (length lines)]
    /\ file_data output_file (machine p')
       = Some (write_text (os (machine p)) (concat (first_occurrences md5 lines))).
Proof.
  intros Hres Hgo Hff lines u.
  assert (is_Some (fs (machine p) !! input_file)) as Hin
    by (destruct Hff as ((f & Hf & _) & _); eauto).
  destruct (main_goes_ahead md5 _ _ _ _ Hres Hin Hgo) as (p0 & -> & Hm).
  rewrite <- Hm in Hff.
  destruct (process_files_ok md5 _ _ _ Hff) as (p' & Hrun & Hout & Hdata).
  rewrite Hm in Hout, Hdata. by exists p'.
Qed.

(** X13: when both paths are given, the input exists, the output is new
    or the user agrees, and nothing fails, [main] returns after printing
    five lines: the file being processed, the output path, the unique
    count, the duplicate count and their total, which is the number of
    lines read; the output file holds the first occurrences, and the two
    counts printed add up to the total. *)
Theorem main_reports_the_counts
  (md5 : bytes -> bytes) (ns : args.t) (p : process) (input_file output_file : path) :
  resolved ns = Some (input_file, output_file) ->
  fs (machine p) !! output_file = None \/ agrees p ->
  fault_free input_file output_file (machine p) ->
  let lines := delivered_lines input_file output_file (machine p) in
  let u := length (first_occurrences md5 lines) in
  exists p',
    main md5 ns p = (MainReturned, p')
    /\ stdout (machine p')
       = stdout (machine p)
         ++ [processing_message input_file; done_message output_file;
             unique_message u; duplicate_message (length lines - u);
             total_message (length lines)]
    /\ file_data output_file (machine p')
       = Some (write_text (os (machine p)) (concat (first_occurrences md5 lines)))
    /\ (u + (length lines - u))%nat = length lines.
Proof.
  intros Hres Hgo Hff lines u.
  destruct (main_report md5 ns p _ _ Hres Hgo Hff) as (p' & Hrun & Hout & Hdata).
  exists p'. repeat (split; [done|]).
  pose proof (kept_length_le md5 ∅ lines) as Hle.
  rewrite kept_first_occurrences in Hle. fold u in Hle. lia.
Qed.

Lemma main_reports_the_counts_witness :
  resolved (positional "in.txt" "out.txt") = Some ("in.txt"%string, "out.txt"%string)
  /\ (fs (machine (console existing_output ["ДА"%string])) !! "out.txt"%string = None
      \/ agrees (console existing_output ["ДА"%string]))
  /\ fault_free "in.txt" "out.txt" (machine (console existing_output ["ДА"%string]))
  /\ exists p',
       main MD5.digest (positional "in.txt" "out.txt") (console existing_output ["ДА"%string])
       = (MainReturned, p')
       /\ stdout (machine p')
          = stdout (machine (console existing_output ["ДА"%string]))
            ++ [processing_message "in.txt"; done_message "out.txt";
                unique_message
                  (length (first_occurrences MD5.digest
                             (delivered_lines "in.txt" "out.txt"
                                (machine (console existing_output ["ДА"%string])))));
                duplicate_message
                  (length (delivered_lines "in.txt" "out.txt"
                             (machine (console existing_output ["ДА"%string])))
                   - length (first_occurrences MD5.digest
                               (delivered_lines "in.txt" "out.txt"
                                  (machine (console existing_output ["ДА"%string])))));
                total_message
                  (length (delivered_lines "in.txt" "out.txt"
                             (machine (console existing_output ["ДА"%string]))))]
       /\ file_data "out.txt" (machine p')
          = Some (write_text (os (machine (console existing_output ["ДА"%string])))
                    (concat (first_occurrences MD5.digest
                               (delivered_lines "in.txt" "out.txt"
                                  (machine (console existing_output ["ДА"%string]))))))
       /\ (length (first_occurrences MD5.digest
                     (delivered_lines "in.txt" "out.txt"
                        (machine (console existing_output ["ДА"%string]))))
           + (length (delivered_lines "in.txt" "out.txt"
                        (machine (console existing_output ["ДА"%string])))
              - length (first_occurrences MD5.digest
                          (delivered_lines "in.txt" "out.txt"
                             (machine (console existing_output ["ДА"%string]))))))%nat
          = length (delivered_lines "in.txt" "out.txt"
                      (machine (console existing_output ["ДА"%string]))).
Proof.
  assert (resolved (positional "in.txt" "out.txt")
          = Some ("in.txt"%string, "out.txt"%string)) as Hres by reflexivity.
  assert (fs (machine (console existing_output ["ДА"%string])) !! "out.txt"%string = None
          \/ agrees (console existing_output ["ДА"%string])) as Hgo.
  { right. exists "ДА"%string, []. split; [reflexivity|].
    refine (bool_decide_unpack _ _). vm_compute. exact I. }
  assert (fault_free "in.txt" "out.txt" (machine (console existing_output ["ДА"%string])))
    as Hff by sample_fault_free.
  split; [exact Hres|]. split; [exact Hgo|]. split; [exact Hff|].
  exact (main_reports_the_counts MD5.digest _ _ _ _ Hres Hgo Hff).
Defined.

(** X14: [main] does not guard against one path given as input and
    output: once the user agrees to overwrite, the file is emptied and
    the report says 0 unique lines, 0 duplicates, 0 in total. *)
Theorem main_in_place_empties_the_file
  (md5 : bytes -> bytes) (ns : args.t) (p : process) (file : path) :
  resolved ns = Some (file, file) ->
  agrees p ->
  fault_free file file (machine p) ->
  exists p',
    main md5 ns p = (MainReturned, p')
    /\ file_data file (machine p') = Some []
    /\ stdout (machine p')
       = stdout (machine p)
         ++ [processing_message file; done_message file;
             unique_message 0; duplicate_message 0; total_message 0].
Proof.
  intros Hres Hyes Hff.
  destruct (main_report md5 ns p file file Hres (or_intror Hyes) Hff)
    as (p' & Hrun & Hout & Hdata).
  unfold delivered_lines in Hout, Hdata. rewrite decide_True in Hout, Hdata by done.
  by exists p'.
Qed.

Lemma main_in_place_empties_the_file_witness :
  resolved (positional "in.txt" "in.txt") = Some ("in.txt"%string, "in.txt"%string)
  /\ agrees (console scenario_A ["y"%string])
  /\ fault_free "in.txt" "in.txt" (machine (console scenario_A ["y"%string]))
  /\ exists p',
       main MD5.digest (positional "in.txt" "in.txt") (console scenario_A ["y"%string])
       = (MainReturned, p')
       /\ file_data "in.txt" (machine p') = Some []
       /\ stdout (machine p')
          = stdout (machine (console scenario_A ["y"%string]))
            ++ [processing_message "in.txt"; done_message "in.txt";
                unique_message 0; duplicate_message 0; total_message 0].
Proof.
  assert (resolved (positional "in.txt" "in.txt")
          = Some ("in.txt"%string, "in.txt"%string)) as Hres by reflexivity.
  assert (agrees (console scenario_A ["y"%string])) as Hyes.
  { exists "y"%string, []. split; [reflexivity|].
    refine (bool_decide_unpack _ _). vm_compute. exact I. }
  assert (fault_free "in.txt" "in.txt" (machine (console scenario_A ["y"%string])))
    as Hff by sample_fault_free.
  split; [exact Hres|]. split; [exact Hyes|]. split; [exact Hff|].
  exact (main_in_place_empties_the_file MD5.digest _ _ _ Hres Hyes Hff).
Defined.

(** X15: when the output exists and the answer typed is not one of the
    four, in any case, [main] prints that the operation was cancelled and
    ends with status 0; no file is touched, one line of standard input is
    consumed. *)
Theorem declining_cancels
  (md5 : bytes -> bytes) (ns : args.t) (p : process) (input_file output_file : path)
  (response : string) (rest : list string) :
  resolved ns = Some (input_file, output_file) ->
  is_Some (fs (machine p) !! input_file) ->
  is_Some (fs (machine p) !! output_file) ->
  stdin p = response :: rest ->
  lower response ∉ answers ->
  main md5 ns p
  = (MainExit 0,
     Process (print cancelled_message (machine p)) rest (stderr p)
             (prompts p ++ [overwrite_prompt output_file])).
Proof.
  intros Hres Hin Hout%os_path_exists_true Hstdin Hno.
  rewrite (main_resolved md5 _ _ _ _ Hres Hin), Hout.
  unfold input. rewrite Hstdin. by rewrite bool_decide_eq_true_2.
Qed.

Lemma declining_cancels_witness :
  resolved (positional "in.txt" "out.txt") = Some ("in.txt"%string, "out.txt"%string)
  /\ is_Some (fs (machine (console existing_output ["yes please"%string; "y"%string]))
                !! "in.txt"%string)
  /\ is_Some (fs (machine (console existing_output ["yes please"%string; "y"%string]))
                !! "out.txt"%string)
  /\ (lower "yes please" ∉ answers)
  /\ main MD5.digest (positional "in.txt" "out.txt")
          (console existing_output ["yes please"%string; "y"%string])
     = (MainExit 0,
        Process (print cancelled_message existing_output) ["y"%string] []
                ([] ++ [overwrite_prompt "out.txt"])).
Proof.
  assert (resolved (positional "in.txt" "out.txt")
          = Some ("in.txt"%string, "out.txt"%string)) as Hres by reflexivity.
  assert (is_Some (fs (machine (console existing_output ["yes please"%string; "y"%string]))
                     !! "in.txt"%string)) as Hin by (vm_compute; eauto).
  assert (is_Some (fs (machine (console existing_output ["yes please"%string; "y"%string]))
                     !! "out.txt"%string)) as Hout by (vm_compute; eauto).
  assert (lower "yes please" ∉ answers) as Hno
    by (refine (bool_decide_unpack _ _); vm_compute; exact I).
  repeat (split; [assumption|]).
  exact (declining_cancels MD5.digest _ _ _ _ _ _ Hres Hin Hout eq_refl Hno).
Defined.

(** X16: when the output exists and standard input is at its end, the
    prompt raises EOFError, which [main] does not catch; no file is
    touched and nothing is printed. *)
Theorem prompt_without_input_raises
  (md5 : bytes -> bytes) (ns : args.t) (p : process) (input_file output_file : path) :
  resolved ns = Some (input_file, output_file) ->
  is_Some (fs (machine p) !! input_file) ->
  is_Some (fs (machine p) !! output_file) ->
  stdin p = [] ->
  main md5 ns p
  = (MainRaised EOFError,
     Process (machine p) [] (stderr p) (prompts p ++ [overwrite_prompt output_file])).
Proof.
  intros Hres Hin Hout%os_path_exists_true Hstdin.
  rewrite (main_resolved md5 _ _ _ _ Hres Hin), Hout.
  unfold input. by rewrite Hstdin.
Qed.

Lemma prompt_without_input_raises_witness :
  resolved (positional "in.txt" "out.txt") = Some ("in.txt"%string, "out.txt"%string)
  /\ is_Some (fs (machine (console existing_output [])) !! "in.txt"%string)
  /\ is_Some (fs (machine (console existing_output [])) !! "out.txt"%string)
  /\ main MD5.digest (positional "in.txt" "out.txt") (console existing_output [])
     = (MainRaised EOFError,
        Process existing_output [] [] ([] ++ [overwrite_prompt "out.txt"])).
Proof.
  assert (resolved (positional "in.txt" "out.txt")
          = Some ("in.txt"%string, "out.txt"%string)) as Hres by reflexivity.
  assert (is_Some (fs (machine (console existing_output [])) !! "in.txt"%string))
    as Hin by (vm_compute; eauto).
  assert (is_Some (fs (machine (console existing_output [])) !! "out.txt"%string))
    as Hout by (vm_compute; eauto).
  repeat (split; [assumption|]).
  exact (prompt_without_input_raises MD5.digest _ _ _ _ Hres Hin Hout eq_refl).
Defined.

(** X17: an I/O error inside [remove_duplicates] ends [main] with status
    1: after the line naming the file being processed, the message of the
    matching except clause is the last thing printed, and no counts are
    reported. *)
Theorem main_exits_1_on_io_error
  (md5 : bytes -> bytes) (ns : args.t) (p : process) (input_file output_file : path)
  (e : io_error) :
  resolved ns = Some (input_file, output_file) ->
  is_Some (fs (machine p) !! input_file) ->
  fs (machine p) !! output_file = None \/ agrees p ->
  failure md5 input_file output_file (machine p) e ->
  exists p',
    main md5 ns p = (MainExit 1, p')
    /\ stdout (machine p')
       = stdout (machine p)
         ++ [processing_message input_file;
             error_message input_file output_file e].
Proof.
  intros Hres Hin Hgo Hfail.
  destruct (main_goes_ahead md5 _ _ _ _ Hres Hin Hgo) as (p0 & -> & Hm).
  rewrite <- Hm in Hfail.
  destruct (process_files_fails md5 _ _ _ _ Hfail) as (p' & Hrun & Hout).
  rewrite Hm in Hout. by exists p'.
Qed.

Lemma main_exits_1_on_io_error_witness :
  resolved (positional "in.txt" "out.txt") = Some ("in.txt"%string, "out.txt"%string)
  /\ is_Some (fs (machine (console bad_sector [])) !! "in.txt"%string)
  /\ (fs (machine (console bad_sector [])) !! "out.txt"%string = None
      \/ agrees (console bad_sector []))
  /\ failure MD5.digest "in.txt" "out.txt" (machine (console bad_sector []))
       (OtherError "[Errno 5] Input/output error")
  /\ exists p',
       main MD5.digest (positional "in.txt" "out.txt") (console bad_sector [])
       = (MainExit 1, p')
       /\ stdout (machine p')
          = stdout (machine (console bad_sector []))
            ++ [processing_message "in.txt";
                error_message "in.txt" "out.txt"
                  (OtherError "[Errno 5] Input/output error")].
Proof.
  assert (resolved (positional "in.txt" "out.txt")
          = Some ("in.txt"%string, "out.txt"%string)) as Hres by reflexivity.
  assert (is_Some (fs (machine (console bad_sector [])) !! "in.txt"%string))
    as Hin by (vm_compute; eauto).
  assert (fs (machine (console bad_sector [])) !! "out.txt"%string = None
          \/ agrees (console bad_sector [])) as Hgo
    by (left; vm_compute; reflexivity).
  assert (failure MD5.digest "in.txt" "out.txt" (machine (console bad_sector []))
            (OtherError "[Errno 5] Input/output error")) as Hf.
  { apply (read_fails MD5.digest "in.txt" "out.txt" bad_sector 2).
    - split.
      + eexists. split; [vm_compute; reflexivity|reflexivity].
      + intros g Hg. vm_compute in Hg. discriminate Hg.
    - vm_compute. lia.
    - intros i line Hi _. destruct i as [|[|i]]; [| |lia].
      + split; [reflexivity|]. intros _. reflexivity.
      + split; [reflexivity|]. intros _. reflexivity.
    - reflexivity. }
  repeat (split; [assumption|]).
  exact (main_exits_1_on_io_error MD5.digest _ _ _ _ _ Hres Hin Hgo Hf).
Defined.

(** X18: whatever [parser.parse_args()] has returned, what follows it in
    [main] ends with status 0, 1 or 2, and with 2 exactly when the parsed
    arguments give no input path or no output path (neither the option
    nor the positional argument holds a non-empty string): neither a
    missing file, nor a refusal, nor the end of standard input at the
    prompt, nor an I/O error ends with status 2.  A command line that
    [argparse] itself rejects never reaches this code. *)
Theorem exit_status_2_means_usage
  (md5 : bytes -> bytes) (ns : args.t) (p : process) :
  (exit_status (fst (main md5 ns p)) = 0
   \/ exit_status (fst (main md5 ns p)) = 1
   \/ exit_status (fst (main md5 ns p)) = 2)
  /\ (exit_status (fst (main md5 ns p)) = 2 <-> resolved ns = None).
Proof.
  assert (forall input_file output_file p0,
            let s := exit_status (fst (process_files md5 input_file output_file p0)) in
            (s = 0 \/ s = 1 \/ s = 2) /\ s <> 2) as Hpf.
  { intros i o p0 s. destruct (process_files_status md5 i o p0) as [Hs|Hs];
      fold s in Hs; rewrite Hs; split; auto; discriminate. }
  unfold main, resolved.
  destruct (nonempty (py_or _ (args.input_file ns))) as [i|]; [|simpl; tauto].
  destruct (nonempty (py_or _ (args.output_file ns))) as [o|]; [|simpl; tauto].
  assert (forall s : Z, (s = 0 \/ s = 1 \/ s = 2) /\ s <> 2 ->
            (s = 0 \/ s = 1 \/ s = 2) /\ (s = 2 <-> Some (i, o) = None)) as Hfin
    by (intros s [? ?]; split; [done|split; [done|discriminate]]).
  destruct (os_path_exists i (machine p)); simpl;
    [|apply Hfin; split; auto; discriminate].
  destruct (os_path_exists o (machine p)); [|apply Hfin, Hpf].
  unfold input. destruct (stdin p) as [|r rest]; simpl;
    [apply Hfin; split; auto; discriminate|].
  destruct (bool_decide (lower r ∉ answers)); simpl;
    [apply Hfin; split; auto; discriminate|apply Hfin, Hpf].
Qed.

Lemma exit_status_2_means_usage_witness :
  resolved (args.Namespace (Some "in.txt"%string) None None None) = None
  /\ exit_status (fst (main MD5.digest
                         (args.Namespace (Some "in.txt"%string) None None None)
                         (console scenario_A []))) = 2.
Proof.
  assert (resolved (args.Namespace (Some "in.txt"%string) None None None)
          = None) as H by reflexivity.
  split; [exact H|].
  exact (proj2 (proj2 (exit_status_2_means_usage MD5.digest
                         (args.Namespace (Some "in.txt"%string) None None None)
                         (console scenario_A []))) H).
Defined.

(** X21: when the input file does not exist, [main] says so and ends with
    status 1 before anything else happens: no prompt is shown even if the
    output exists, standard input is not read, no file is touched. *)
Theorem missing_input_ends_with_status_1
  (md5 : bytes -> bytes) (ns : args.t) (p : process) (input_file output_file : path) :
  resolved ns = Some (input_file, output_file) ->
  fs (machine p) !! input_file = None ->
  main md5 ns p
  = (MainExit 1,
     Process (print (not_exists_message input_file) (machine p))
             (stdin p) (stderr p) (prompts p)).
Proof.
  intros [Hi Ho]%resolved_Some Hin%os_path_exists_false.
  unfold main. by rewrite Hi, Ho, Hin.
Qed.

Lemma missing_input_ends_with_status_1_witness :
  resolved (positional "missing.txt" "out.txt")
  = Some ("missing.txt"%string, "out.txt"%string)
  /\ fs (machine (console existing_output ["y"%string])) !! "missing.txt"%string = None
  /\ main MD5.digest (positional "missing.txt" "out.txt")
          (console existing_output ["y"%string])
     = (MainExit 1,
        Process (print (not_exists_message "missing.txt") existing_output)
                ["y"%string] [] []).
Proof.
  assert (resolved (positional "missing.txt" "out.txt")
          = Some ("missing.txt"%string, "out.txt"%string)) as Hres by reflexivity.
  assert (fs (machine (console existing_output ["y"%string])) !! "missing.txt"%string
          = None) as Hin by (vm_compute; reflexivity).
  split; [exact Hres|]. split; [exact Hin|].
  exact (missing_input_ends_with_status_1 MD5.digest _ _ _ _ Hres Hin).
Defined.

(** ** The answers [main] accepts *)

Lemma upper_inv (a c : ascii) :
  byte_in 0x41 0x5a a = true -> byte_add a 0x20 = c -> a = byte_sub c 0x20.
Proof.
  each_byte a; intros Hup Heq; try discriminate Hup; subst c; reflexivity.
Qed.

Lemma upper_is_not_lead (a : ascii) :
  byte_in 0x41 0x5a a = true -> byte_in 0x61 0x7a (byte_add a 0x20) = true.
Proof. each_byte a; intros Hup; try discriminate Hup; reflexivity. Qed.

Lemma lead_inv (a : ascii) : byte_in 0xd0 0xd0 a = true -> a = "208"%char.
Proof. each_byte a; intros Hd; try discriminate Hd; reflexivity. Qed.

Lemma cyrillic_upper_inv (b d : ascii) :
  byte_in 0x90 0x9f b = true -> byte_add b 0x20 = d -> b = byte_sub d 0x20.
Proof.
  each_byte b; intros Hup Heq; try discriminate Hup; subst d; reflexivity.
Qed.

Lemma lower_nil s : lower s = ""%string -> s = ""%string.
Proof.
  destruct s as [|a s]; [done|]. simpl.
  destruct (byte_in 65 90 a); [discriminate|].
  destruct (byte_in 208 208 a); [|discriminate].
  destruct s as [|b s]; [discriminate|].
  repeat case_match; discriminate.
Qed.

(** The strings that lower to a text starting with the Latin letter
    [c]. *)
Lemma lower_latin_inv (c : ascii) (s t : string) :
  byte_in 0x61 0x7a c = true ->
  lower s = String c t ->
  exists rest,
    lower rest = t /\ (s = String c rest \/ s = String (byte_sub c 0x20) rest).
Proof.
  intros Hc. destruct s as [|a s]; [discriminate|]. simpl.
  destruct (byte_in 65 90 a) eqn:Hup.
  { intros [= Ha Ht]. exists s. split; [done|]. right.
    by rewrite (upper_inv a c Hup Ha). }
  destruct (byte_in 208 208 a) eqn:Hlead.
  - apply lead_inv in Hlead. subst a.
    destruct s as [|b s].
    + intros [= <- _]. discriminate Hc.
    + repeat case_match; intros [= <- _]; discriminate Hc.
  - intros [= -> Ht]. exists s. auto.
Qed.

(** The strings that lower to a text starting with a Cyrillic letter of
    U+0430-U+043F, whose second byte is [d]. *)
Lemma lower_cyrillic_inv (d : ascii) (s t : string) :
  byte_in 0xb0 0xbf d = true ->
  lower s = String "208" (String d t) ->
  exists rest,
    lower rest = t
    /\ (s = String "208" (String d rest)
        \/ s = String "208" (String (byte_sub d 0x20) rest)).
Proof.
  intros Hd. destruct s as [|a s]; [discriminate|]. simpl.
  destruct (byte_in 65 90 a) eqn:Hup.
  { intros [= Ha _]. apply upper_is_not_lead in Hup. rewrite Ha in Hup.
    discriminate Hup. }
  destruct (byte_in 208 208 a) eqn:Hlead.
  - apply lead_inv in Hlead. subst a.
    destruct s as [|b s]; [discriminate|].
    destruct (byte_in 128 143 b) eqn:H1; [discriminate|].
    destruct (byte_in 144 159 b) eqn:H2.
    { intros [= Hb Ht]. exists s. split; [done|]. right.
      by rewrite (cyrillic_upper_inv b d H2 Hb). }
    destruct (byte_in 160 175 b) eqn:H3; [discriminate|].
    intros [= -> Ht]. exists s. auto.
  - intros [= -> _]. discriminate Hlead.
Qed.

(** X19: the answers that let [main] overwrite are the sixteen spellings
    of y, yes, д and да in upper and lower case, and nothing else: an
    empty answer or one with a blank around it cancels. *)
Theorem agreeing_answers (response : string) :
  lower response ∈ answers <-> response ∈ agreeing.
Proof.
  split.
  - unfold answers. rewrite !elem_of_cons, elem_of_nil.
    intros [Hy|[Hyes|[Hd|[Hda|[]]]]].
    + apply lower_latin_inv in Hy as (r1 & ->%lower_nil & [->| ->]);
        [among_agreeing..|reflexivity].
    + apply lower_latin_inv in Hyes as (r1 & Hes & H1); [|reflexivity].
      apply lower_latin_inv in Hes as (r2 & Hs & H2); [|reflexivity].
      apply lower_latin_inv in Hs as (r3 & ->%lower_nil & H3); [|reflexivity].
      destruct H1 as [-> | ->], H2 as [-> | ->], H3 as [-> | ->]; among_agreeing.
    + apply lower_cyrillic_inv in Hd as (r1 & ->%lower_nil & [->| ->]);
        [among_agreeing..|reflexivity].
    + apply lower_cyrillic_inv in Hda as (r1 & Ha & H1); [|reflexivity].
      apply lower_cyrillic_inv in Ha as (r2 & ->%lower_nil & H2); [|reflexivity].
      destruct H1 as [-> | ->], H2 as [-> | ->]; among_agreeing.
  - unfold agreeing. rewrite !elem_of_cons, elem_of_nil.
    intros H. repeat (destruct H as [->|H]; [among_agreeing|]). done.
Qed.

(** ** The set of digests *)

Lemma for_lines_returns (md5 : bytes -> bytes) (out : path) (lines : list str)
  (i : nat) (st st' : locals) (w w' : world) :
  for_lines md5 out lines i st w = (inr st', w') -> st' = after md5 st lines.
Proof.
  revert i st w. induction lines as [|line lines IH]; intros i st w;
    cbn [for_lines]; unfold bind at 1; unfold f_next;
    destruct (read_fault w i); try discriminate.
  - unfold ret. intros [= <- _]. by rewrite after_nil.
  - unfold bind at 1. unfold loop_body. fold (line_hash md5 line).
    destruct (decide (line_hash md5 line ∉ seen_hashes st)) as [Hl|Hl].
    + unfold bind at 1. unfold f_write. destruct (write_fault w i); [discriminate|].
      unfold ret. intros ->%IH. by apply after_new.
    + unfold ret. intros ->%IH. apply dec_stable in Hl. by apply after_old.
Qed.

(** X20: when the loop has run through its lines, [seen_hashes] holds
    exactly the digests of the lines read, and [unique_count] is the
    number of its elements: one 16-byte digest is held per unique line. *)
Theorem seen_hashes_has_unique_count_elements
  (md5 : bytes -> bytes) (out : path) (lines : list str) (i : nat)
  (st : locals) (w w' : world) :
  for_lines md5 out lines i initial w = (inr st, w') ->
  seen_hashes st = list_to_set (line_hash md5 <$> lines)
  /\ unique_count st = size (seen_hashes st).
Proof.
  intros ->%for_lines_returns. unfold after, initial.
  cbn [seen_hashes unique_count]. rewrite kept_length.
  assert (list_to_set (line_hash md5 <$> lines) ∖ ∅
          =@{gset bytes} list_to_set (line_hash md5 <$> lines)) as -> by set_solver.
  assert (list_to_set (line_hash md5 <$> lines) ∪ ∅
          =@{gset bytes} list_to_set (line_hash md5 <$> lines)) as -> by set_solver.
  done.
Qed.

Lemma seen_hashes_has_unique_count_elements_witness :
  exists st w',
    for_lines MD5.digest "out.txt" [nl "a"; nl "b"; nl "a"] 0 initial scenario_A
    = (inr st, w')
    /\ seen_hashes st = list_to_set (line_hash MD5.digest <$> [nl "a"; nl "b"; nl "a"])
    /\ unique_count st = size (seen_hashes st).
Proof.
  destruct (for_lines MD5.digest "out.txt" [nl "a"; nl "b"; nl "a"] 0 initial scenario_A)
    as [[e|st] w'] eqn:E.
  - vm_compute in E. discriminate E.
  - exists st, w'. split; [reflexivity|].
    exact (seen_hashes_has_unique_count_elements MD5.digest _ _ _ _ _ _ E).
Defined.
